(** * pytest-console-scripts: the dual-mode script runner

    A shallow embedding of [pytest_console_scripts/__init__.py]: launch-mode
    resolution ([pytest_generate_tests]), the result record ([RunResult]),
    the locator and loader ([_locate_script], [_load_script]), the
    executable-ness classifier ([_is_nonexecutable_python_file]) and the two
    run strategies ([run_inprocess], [run_subprocess]).

    Process-global state (working directory, [os.environ], the root logger,
    the [sys] streams and [sys.argv], the file system) is an explicit
    [World]; code that can raise returns an [outcome]; code that mutates the
    world lives in the state-and-exception monad [M]. *)

From stdpp Require Import base decidable option list strings gmap pretty.
From Stdlib Require Import ZArith Lia Ascii String.

Local Open Scope Z_scope.
Local Open Scope string_scope.

(** ** Python values and exceptions *)

(** The fragment of Python objects that flows through exit codes, marker
    arguments and return values of scripts. *)
Inductive pyval : Type :=
  | VNone
  | VBool (b : bool)
  | VInt (n : Z)
  | VStr (s : string).

#[global] Instance pyval_eq_dec : EqDecision pyval.
Proof. solve_decision. Defined.

(** [str(v)]. *)
Definition py_str (v : pyval) : string :=
  match v with
  | VNone => "None"
  | VBool true => "True"
  | VBool false => "False"
  | VInt n => pretty n
  | VStr s => s
  end.

(** [v == 0]; [bool] is a subclass of [int], so [False == 0]. *)
Definition py_eq_zero (v : pyval) : bool :=
  match v with
  | VInt n => bool_decide (n = 0)
  | VBool b => negb b
  | VNone | VStr _ => false
  end.

(** [isinstance(v, str)] and [v is None]. *)
Definition is_str (v : pyval) : bool :=
  match v with VStr _ => true | _ => false end.
Definition is_none (v : pyval) : bool :=
  match v with VNone => true | _ => false end.

(** Exceptions, by the only distinction the runner's [except] clauses make:
    [SystemExit] with its [code], classes derived from [Exception], and
    the remaining classes derived from [BaseException] alone
    ([KeyboardInterrupt], [GeneratorExit], ...). *)
Inductive pyexc : Type :=
  | SystemExit (code : pyval)
  | PyException (cls msg : string)
  | PyBaseException (cls msg : string).

#[global] Instance pyexc_eq_dec : EqDecision pyexc.
Proof. solve_decision. Defined.

Inductive outcome (A : Type) : Type :=
  | Ret (a : A)
  | Raise (e : pyexc).
Arguments Ret {A} a.
Arguments Raise {A} e.

Definition FileNotFoundError (msg : string) : pyexc :=
  PyException "FileNotFoundError" msg.
Definition NotADirectoryError (msg : string) : pyexc :=
  PyException "NotADirectoryError" msg.
Definition IsADirectoryError (msg : string) : pyexc :=
  PyException "IsADirectoryError" msg.
Definition IndexError (msg : string) : pyexc := PyException "IndexError" msg.
Definition KeyError (msg : string) : pyexc := PyException "KeyError" msg.
Definition ValueError (msg : string) : pyexc := PyException "ValueError" msg.
Definition SyntaxError (msg : string) : pyexc := PyException "SyntaxError" msg.
Definition KeyboardInterrupt : pyexc :=
  PyBaseException "KeyboardInterrupt" "".

(** [a or b] on values that are [None] or a string: [a] when it is truthy
    (a non-empty string), otherwise [b]. *)
Definition py_or (a b : option string) : option string :=
  match a with
  | Some s => if decide (s = "") then b else a
  | None => b
  end.

(** ** Launch-mode resolution *)

Module LaunchMode.

(** What [pytest_generate_tests] reads from its [metafunc]: the fixture
    names of the test, the arguments of the closest [script_launch_mode]
    marker (if the test carries one), the [--script-launch-mode] option
    ([None] by default) and the ini value (a string, empty when unset). *)
Record Metafunc : Type := {
  fixturenames : list string;
  closest_marker : option (list pyval);
  option_script_launch_mode : option string;
  ini_script_launch_mode : string;
}.

(** The effect of the hook on the test. *)
Inductive generated : Type :=
  | NotParametrized
  | Parametrized (argname : string) (argvalues : list string).

(** [_get_mark_mode]: [str(marker.args[0])], or [None] without a marker. *)
Definition _get_mark_mode (mf : Metafunc) : outcome (option string) :=
  match closest_marker mf with
  | Some args =>
      match args with
      | a :: _ => Ret (Some (py_str a))
      | [] => Raise (IndexError "tuple index out of range")
      end
  | None => Ret None
  end.

(** Line 97: [mark_mode or option_mode or config_mode or 'inprocess']. *)
Definition resolve_mode (mark_mode option_mode : option string)
    (config_mode : string) : option string :=
  py_or (py_or (py_or mark_mode option_mode) (Some config_mode))
        (Some "inprocess").

Definition pytest_generate_tests (mf : Metafunc) : outcome generated :=
  if bool_decide ("script_launch_mode" ∈ fixturenames mf) then
    match _get_mark_mode mf with
    | Raise e => Raise e
    | Ret mark_mode =>
        let option_mode := option_script_launch_mode mf in
        let config_mode := ini_script_launch_mode mf in
        let mode := resolve_mode mark_mode option_mode config_mode in
        if bool_decide (mode = Some "inprocess" ∨ mode = Some "subprocess")
        then Ret (Parametrized "script_launch_mode" (option_list mode))
        else if bool_decide (mode = Some "both")
        then Ret (Parametrized "script_launch_mode"
                    ["inprocess"; "subprocess"])
        else Raise (ValueError ("Invalid script launch mode: " +:+
                                  from_option id "None" mode))
    end
  else Ret NotParametrized.

(** The spec's wording of the resolution: the first source that is set
    (a non-empty string), by precedence, else in-process. *)
Definition is_set (src : option string) : bool :=
  match src with
  | Some s => bool_decide (s ≠ "")
  | None => false
  end.

Fixpoint first_set (srcs : list (option string)) : string :=
  match srcs with
  | [] => "inprocess"
  | src :: rest =>
      if is_set src then from_option id "" src else first_set rest
  end.

End LaunchMode.

(** ** The result record *)

(** [RunResult]: the four attributes set by [__init__]. *)
Record RunResult : Type := {
  success : bool;
  returncode : pyval;
  stdout : string;
  stderr : string;
}.

Definition LF : string := String "010"%char EmptyString.

(** The three [print] calls of [RunResult.print], as the text they send to
    [sys.stdout]. *)
Definition RunResult_report (r : RunResult) : string :=
  "# Script return code: " +:+ py_str (returncode r) +:+ LF +:+
  "# Script stdout:" +:+ LF +:+ stdout r +:+ LF +:+
  "# Script stderr:" +:+ LF +:+ stderr r +:+ LF.

(** ** The process: ambient state the runner reads and mutates *)

(** The root logger's configuration, as saved by [_save_and_reset_logger]:
    handlers are named by object identity. *)
Record Logger : Type := {
  level : Z;
  handlers : list nat;
  disabled : bool;
}.

Definition NOTSET : Z := 0.

(** A file-system entry: its [st_mode] and, for a regular file, its text. *)
Record File : Type := {
  st_mode : Z;
  contents : string;
}.

(** Constants of [stat]: [0o170000], [0o040000], [0o100000], [0o100] and
    [0o001]. *)
Definition S_IFMT : Z := 0xF000.
Definition S_IFDIR : Z := 0x4000.
Definition S_IFREG : Z := 0x8000.
Definition S_IXUSR : Z := 0x40.
Definition S_IXOTH : Z := 0x1.
(** [os.X_OK], the flag of [os.access]. *)
Definition X_OK : Z := 1.

Definition is_dir (f : File) : bool :=
  bool_decide (Z.land (st_mode f) S_IFMT = S_IFDIR).

(** Text streams ([io.StringIO] objects and the real streams) live in a
    store keyed by object identity, so that the buffer the runner creates,
    the one the script writes to through [sys.stderr], and the one the
    runner reads back are the same object. *)
Record World : Type := {
  os_cwd : string;
  os_environ : gmap string string;
  root_logger : Logger;
  fs : gmap string File;
  streams : gmap nat string;
  sys_stdin : nat;
  sys_stdout : nat;
  sys_stderr : nat;
  sys_argv : list string;
  sys_executable : option string;
}.

Definition set_cwd (d : string) (w : World) : World :=
  {| os_cwd := d; os_environ := os_environ w; root_logger := root_logger w;
     fs := fs w; streams := streams w; sys_stdin := sys_stdin w;
     sys_stdout := sys_stdout w; sys_stderr := sys_stderr w;
     sys_argv := sys_argv w; sys_executable := sys_executable w |}.

Definition set_environ (env : gmap string string) (w : World) : World :=
  {| os_cwd := os_cwd w; os_environ := env; root_logger := root_logger w;
     fs := fs w; streams := streams w; sys_stdin := sys_stdin w;
     sys_stdout := sys_stdout w; sys_stderr := sys_stderr w;
     sys_argv := sys_argv w; sys_executable := sys_executable w |}.

Definition set_logger (l : Logger) (w : World) : World :=
  {| os_cwd := os_cwd w; os_environ := os_environ w; root_logger := l;
     fs := fs w; streams := streams w; sys_stdin := sys_stdin w;
     sys_stdout := sys_stdout w; sys_stderr := sys_stderr w;
     sys_argv := sys_argv w; sys_executable := sys_executable w |}.

Definition set_streams (s : gmap nat string) (w : World) : World :=
  {| os_cwd := os_cwd w; os_environ := os_environ w;
     root_logger := root_logger w; fs := fs w; streams := s;
     sys_stdin := sys_stdin w; sys_stdout := sys_stdout w;
     sys_stderr := sys_stderr w; sys_argv := sys_argv w;
     sys_executable := sys_executable w |}.

(** The four attributes of [sys] that [mock.patch] substitutes. *)
Definition set_sys (i o e : nat) (argv : list string) (w : World) : World :=
  {| os_cwd := os_cwd w; os_environ := os_environ w;
     root_logger := root_logger w; fs := fs w; streams := streams w;
     sys_stdin := i; sys_stdout := o; sys_stderr := e; sys_argv := argv;
     sys_executable := sys_executable w |}.

(** *** Paths *)

Fixpoint ends_with_slash (s : string) : bool :=
  match s with
  | EmptyString => false
  | String c EmptyString => bool_decide (c = "/"%char)
  | String _ rest => ends_with_slash rest
  end.

Definition starts_with_slash (s : string) : bool :=
  match s with
  | String c _ => bool_decide (c = "/"%char)
  | EmptyString => false
  end.

(** [os.path.join(a, b)] (posixpath, two arguments). *)
Definition os_path_join (a b : string) : string :=
  if starts_with_slash b then b
  else if bool_decide (a = "") || ends_with_slash a then a +:+ b
  else a +:+ "/" +:+ b.

(** The entry a path names for the process: relative paths are taken from
    the current working directory. *)
Definition resolve (w : World) (p : string) : string :=
  os_path_join (os_cwd w) p.

Definition os_path_exists (w : World) (p : string) : bool :=
  bool_decide (is_Some (fs w !! resolve w p)).

(** [Path(p).stat().st_mode]. *)
Definition stat_mode (w : World) (p : string) : outcome Z :=
  match fs w !! resolve w p with
  | Some f => Ret (st_mode f)
  | None => Raise (FileNotFoundError p)
  end.

(** [open(p, 'rt', encoding='utf-8')] followed by [read()]. *)
Definition open_read (w : World) (p : string) : outcome string :=
  match fs w !! resolve w p with
  | Some f =>
      if is_dir f then Raise (IsADirectoryError p) else Ret (contents f)
  | None => Raise (FileNotFoundError p)
  end.

(** The components of a path as [pathlib] parses them: empty and ["."]
    components are dropped. *)
Fixpoint split_slash (s : string) (cur : string) : list string :=
  match s with
  | EmptyString => [cur]
  | String c rest =>
      if bool_decide (c = "/"%char)
      then cur :: split_slash rest ""
      else split_slash rest (cur +:+ String c EmptyString)
  end.

Definition path_parts (p : string) : list string :=
  filter (λ c, c ≠ "" ∧ c ≠ ".") (split_slash p "").

(** [Path(p).name]: the final component, or the empty string. *)
Definition path_name (p : string) : string :=
  List.last (path_parts p) "".

(** The text after the last dot of [s], when [s] has a dot. *)
Fixpoint after_last_dot (s : string) : option string :=
  match s with
  | EmptyString => None
  | String c rest =>
      match after_last_dot rest with
      | Some t => Some t
      | None => if bool_decide (c = "."%char) then Some rest else None
      end
  end.

(** [Path(p).suffix]: with [i = name.rfind('.')], the text [name[i:]] when
    [0 < i < len(name) - 1], else the empty string. *)
Definition path_suffix (p : string) : string :=
  let name := path_name p in
  match after_last_dot name with
  | Some t =>
      if bool_decide (String.length t + 1 < String.length name)%nat
         && bool_decide (0 < String.length t)%nat
      then "." +:+ t else ""
  | None => ""
  end.

(** *** [repr] of a string, and [str] of an open text file *)

Definition hex_digit (n : N) : ascii :=
  nth (N.to_nat n)
      (list_ascii_of_string "0123456789abcdef") "0"%char.

Fixpoint contains_char (c : ascii) (s : string) : bool :=
  match s with
  | EmptyString => false
  | String d rest => bool_decide (c = d) || contains_char c rest
  end.

(** One character of [repr(s)] inside the quotes [q] (ASCII rules; bytes
    above 127 are kept). *)
Definition repr_char (q c : ascii) : string :=
  let n := N_of_ascii c in
  if bool_decide (c = q) || bool_decide (c = "\"%char)
  then String "\"%char (String c EmptyString)
  else if bool_decide (n = 9%N) then "\t"
  else if bool_decide (n = 10%N) then "\n"
  else if bool_decide (n = 13%N) then "\r"
  else if bool_decide (n < 32)%N || bool_decide (n = 127%N)
  then String "\"%char (String "x"%char
         (String (hex_digit (n / 16)) (String (hex_digit (n mod 16))
            EmptyString)))
  else String c EmptyString.

Fixpoint repr_body (q : ascii) (s : string) : string :=
  match s with
  | EmptyString => EmptyString
  | String c rest => repr_char q c +:+ repr_body q rest
  end.

(** [repr(s)]: single quotes, unless [s] has a single quote and no double
    quote. *)
Definition py_repr (s : string) : string :=
  let q := if contains_char "'"%char s && negb (contains_char "034"%char s)
           then "034"%char else "'"%char in
  String q (repr_body q s +:+ String q EmptyString).

(** [str(f)] for [f = open(name, 'rt', encoding='utf-8')]. *)
Definition TextIOWrapper_str (name : string) : string :=
  "<_io.TextIOWrapper name=" +:+ py_repr name +:+
  " mode='rt' encoding='utf-8'>".

(** ** The runner's monad *)

(** What the runner did to the snapshot, in order: a journal kept beside
    the world, out of reach of the script under test. *)
Inductive part : Type := LoggerConf | WorkingDir | Environ.

Inductive event : Type :=
  | Saved (p : part)
  | Invoked
  | Restored (p : part).

#[global] Instance part_eq_dec : EqDecision part.
Proof. solve_decision. Defined.
#[global] Instance event_eq_dec : EqDecision event.
Proof. solve_decision. Defined.

Record St : Type := {
  world : World;
  journal : list event;
}.

(** Code of the script under test: it sees and changes the world only. *)
Definition Callable : Type := World → outcome pyval * World.

Definition M (A : Type) : Type := St → outcome A * St.

Definition ret {A} (a : A) : M A := λ st, (Ret a, st).

Definition raise {A} (e : pyexc) : M A := λ st, (Raise e, st).

Definition bind {A B} (c : M A) (k : A → M B) : M B :=
  λ st, match c st with
        | (Ret a, st') => k a st'
        | (Raise e, st') => (Raise e, st')
        end.

Notation "'let*' x := c 'in' k" := (bind c (λ x, k))
  (at level 10, x pattern, c at level 100, k at level 200).
Notation "c ;;; k" := (bind c (λ _, k))
  (at level 100, k at level 200, right associativity).

Definition reads {A} (f : World → A) : M A :=
  λ st, (Ret (f (world st)), st).

Definition reads_outcome {A} (f : World → outcome A) : M A :=
  λ st, (f (world st), st).

Definition modify (f : World → World) : M unit :=
  λ st, (Ret tt, {| world := f (world st); journal := journal st |}).

Definition emit (ev : event) : M unit :=
  λ st, (Ret tt, {| world := world st; journal := journal st ++ [ev] |}).

Definition lift_world {A} (f : World → outcome A * World) : M A :=
  λ st, let '(o, w) := f (world st) in
        (o, {| world := w; journal := journal st |}).

(** [try: body except ...]: [handler e] is the matching clause, or [None]
    when no clause matches [e] and it propagates. *)
Definition try_except {A} (body : M A) (handler : pyexc → option (M A))
    : M A :=
  λ st, match body st with
        | (Ret a, st') => (Ret a, st')
        | (Raise e, st') =>
            match handler e with
            | Some h => h st'
            | None => (Raise e, st')
            end
        end.

(** [with mock.patch('sys.stdin', new=i), ..., mock.patch('sys.argv',
    new=argv): body]: the four attributes are set on entry and put back to
    their originals on every exit of [body]. *)
Definition with_patches {A} (i o e : nat) (argv : list string)
    (body : M A) : M A :=
  λ st,
    let w := world st in
    let '(r, st') :=
      body {| world := set_sys i o e argv w; journal := journal st |} in
    (r, {| world := set_sys (sys_stdin w) (sys_stdout w) (sys_stderr w)
                      (sys_argv w) (world st');
           journal := journal st' |}).

(** *** Streams *)

Definition getvalue (id : nat) (w : World) : string :=
  default "" (streams w !! id).

(** [StreamMock()]: a new, empty buffer. *)
Definition StreamMock : M nat :=
  λ st,
    let w := world st in
    let id := fresh (dom (streams w)) in
    (Ret id, {| world := set_streams (<[id := ""]> (streams w)) w;
                journal := journal st |}).

(** [f.write(text)] on the stream object [id]. *)
Definition stream_write (id : nat) (text : string) : M unit :=
  modify (λ w, set_streams (<[id := getvalue id w +:+ text]> (streams w)) w).

(** [print(..., file=sys.stdout)] and [..., file=sys.stderr] with the
    streams bound at the time of the call. *)
Definition print_stdout (text : string) : M unit :=
  let* o := reads sys_stdout in stream_write o text.
Definition print_stderr (text : string) : M unit :=
  let* e := reads sys_stderr in stream_write e text.

(** *** Working directory *)

Definition os_getcwd : M string := reads os_cwd.

Definition os_chdir (d : string) : M unit :=
  λ st,
    let w := world st in
    match fs w !! resolve w d with
    | None => (Raise (FileNotFoundError d), st)
    | Some f =>
        if is_dir f
        then (Ret tt, {| world := set_cwd (resolve w d) w;
                         journal := journal st |})
        else (Raise (NotADirectoryError d), st)
    end.

(** ** Result packaging *)

(** [RunResult.__init__]. *)
Definition RunResult_init (rc : pyval) (out err : string)
    (print_result : bool) : M RunResult :=
  let self := {| success := py_eq_zero rc; returncode := rc;
                 stdout := out; stderr := err |} in
  if print_result
  then print_stdout (RunResult_report self) ;;; ret self
  else ret self.

(** ** Options of a run *)

(** The keyword options of [run]: the four the runner knows, the
    [universal_newlines] default it adds for the child process, and the
    rest, which only [subprocess.run] looks at. *)
Record Options : Type := {
  opt_env : option (gmap string string);
  opt_cwd : option string;
  opt_stdin : option nat;
  opt_print_result : option bool;
  opt_universal_newlines : option bool;
  opt_rest : gmap string pyval;
}.

Definition no_options : Options :=
  {| opt_env := None; opt_cwd := None; opt_stdin := None;
     opt_print_result := None; opt_universal_newlines := None;
     opt_rest := ∅ |}.


(** [options.pop('print_result')]: the value and the remaining options. *)
Definition pop_print_result (o : Options) : M (bool * Options) :=
  match opt_print_result o with
  | Some b =>
      ret (b, {| opt_env := opt_env o; opt_cwd := opt_cwd o;
                 opt_stdin := opt_stdin o; opt_print_result := None;
                 opt_universal_newlines := opt_universal_newlines o;
                 opt_rest := opt_rest o |})
  | None => raise (KeyError "'print_result'")
  end.

(** [options.pop('stdin')]. *)
Definition pop_stdin (o : Options) : Options :=
  {| opt_env := opt_env o; opt_cwd := opt_cwd o; opt_stdin := None;
     opt_print_result := opt_print_result o;
     opt_universal_newlines := opt_universal_newlines o;
     opt_rest := opt_rest o |}.

(** [options.setdefault('universal_newlines', True)]. *)
Definition setdefault_universal_newlines (o : Options) : Options :=
  {| opt_env := opt_env o; opt_cwd := opt_cwd o; opt_stdin := opt_stdin o;
     opt_print_result := opt_print_result o;
     opt_universal_newlines :=
       Some (default true (opt_universal_newlines o));
     opt_rest := opt_rest o |}.

(** [options.get('env', {}).get('PATH', None)]. *)
Definition env_PATH (o : Options) : option string :=
  default ∅ (opt_env o) !! "PATH".

(** The same options without the [env] key. *)
Definition without_env (o : Options) : Options :=
  {| opt_env := None; opt_cwd := opt_cwd o; opt_stdin := opt_stdin o;
     opt_print_result := opt_print_result o;
     opt_universal_newlines := opt_universal_newlines o;
     opt_rest := opt_rest o |}.

(** ** Collaborators outside the repository *)

(** What [compile(source, filename, 'exec')] produces. *)
Record CodeObject : Type := {
  co_source : string;
  co_filename : string;
}.

(** An entry of the [console_scripts] group: [load] imports the callable
    and may itself fail or have effects. *)
Record EntryPoint : Type := {
  ep_load : World → outcome Callable * World;
}.

Record CompletedProcess : Type := {
  cp_returncode : Z;
  cp_stdout : string;
  cp_stderr : string;
}.

(** The interpreter and the operating system, as far as the runner calls
    them: [shutil.which(cmd, path=...)], the [console_scripts] entry points
    named [cmd], the syntax check of [compile], [exec(code, globals)], the
    text [traceback.print_exception] prints, and [subprocess.run]. *)
Record Host : Type := {
  shutil_which : World → string → option string → option string;
  entry_points : string → list EntryPoint;
  syntax_error : string → option string;
  py_exec : CodeObject → gmap string pyval → World → outcome unit * World;
  format_exception : pyexc → string;
  subprocess_run :
    list string → option string → Options → World →
    outcome CompletedProcess * World;
}.

(** ** The classifier *)

(** [_is_nonexecutable_python_file]. *)
Definition _is_nonexecutable_python_file (w : World) (command : string)
    : outcome bool :=
  match stat_mode w command with
  | Raise e => Raise e
  | Ret mode =>
      if bool_decide (Z.land mode X_OK ≠ 0) then Ret false
      else Ret (bool_decide (path_suffix command = ".py"))
  end.

(** The spec's wording of the classification: no execute bit for the owner
    and a name with the Python source extension. *)
Definition spec_nonexecutable_python_source (mode : Z) (p : string) : bool :=
  bool_decide (Z.land mode S_IXUSR = 0) &&
  bool_decide (path_suffix p = ".py").

(** ** The script runner *)

Record ScriptRunner : Type := {
  launch_mode : string;
  rootdir : string;
  print_result : bool;
}.

Definition AssertionError : pyexc := PyException "AssertionError" "".

(** [ScriptRunner.__init__]. *)
Definition ScriptRunner_init (launch_mode rootdir : string)
    (print_result : bool) : outcome ScriptRunner :=
  if bool_decide (launch_mode = "inprocess" ∨ launch_mode = "subprocess")
  then Ret {| launch_mode := launch_mode; rootdir := rootdir;
              print_result := print_result |}
  else Raise AssertionError.

(** The local variables of [run_inprocess] that are live when the script is
    called. *)
Record Prepared : Type := {
  p_script : Callable;
  p_stdin : nat;
  p_stdout : nat;
  p_stderr : nat;
  p_saved_dir : string;
  p_logger_conf : Logger;
  p_old_env : option (gmap string string);
  p_print_result : bool;
}.


(** [os.chdir(d)] would succeed in [w]. *)
Definition can_enter (w : World) (d : string) : Prop :=
  ∃ f, fs w !! resolve w d = Some f ∧ is_dir f = true.

Section Runner.

Context (host : Host).

(** [compile(source, filename, 'exec', flags=0)]. *)
Definition py_compile (source filename : string) : outcome CodeObject :=
  match syntax_error host source with
  | Some msg => Raise (SyntaxError msg)
  | None => Ret {| co_source := source; co_filename := filename |}
  end.

(** [_save_and_reset_logger]. *)
Definition _save_and_reset_logger : M Logger :=
  let* config := reads root_logger in
  modify (set_logger {| level := NOTSET; handlers := [];
                        disabled := false |}) ;;;
  emit (Saved LoggerConf) ;;;
  ret config.

(** [_restore_logger]: three assignments on the root logger. *)
Definition _restore_logger (config : Logger) : M unit :=
  modify (λ w, set_logger {| level := level (root_logger w);
                              handlers := handlers config;
                              disabled := disabled (root_logger w) |} w) ;;;
  modify (λ w, set_logger {| level := level (root_logger w);
                              handlers := handlers (root_logger w);
                              disabled := disabled config |} w) ;;;
  modify (λ w, set_logger {| level := level config;
                              handlers := handlers (root_logger w);
                              disabled := disabled (root_logger w) |} w) ;;;
  emit (Restored LoggerConf).

(** [_locate_script]. *)
Definition _locate_script (command : string) (options : Options)
    : M string :=
  let* script_path :=
    reads (λ w, shutil_which host w command (env_PATH options)) in
  match script_path with
  | Some p => ret p
  | None =>
      let* here := os_getcwd in
      let cwd := default here (opt_cwd options) in
      let script_path := os_path_join cwd command in
      let* found := reads (λ w, os_path_exists w script_path) in
      if found then ret script_path
      else raise (FileNotFoundError ("Cannot find " +:+ command))
  end.

(** The thunk [console_script] of [_load_script]. *)
Definition console_script (ep : EntryPoint) : Callable :=
  λ w, match ep_load ep w with
       | (Ret s, w') => s w'
       | (Raise e, w') => (Raise e, w')
       end.

(** The thunk [exec_script] of [_load_script]. Inside the [with] block
    the name [script] is the open file, so the filename handed to
    [compile] is [str] of that file object. *)
Definition exec_script (script_path : string) : Callable :=
  λ w, match open_read w script_path with
       | Raise e => (Raise e, w)
       | Ret text =>
           match py_compile text (TextIOWrapper_str script_path) with
           | Raise e => (Raise e, w)
           | Ret compiled =>
               match py_exec host compiled
                       {[ "__name__" := VStr "__main__" ]} w with
               | (Ret _, w') => (Ret (VInt 0), w')
               | (Raise e, w') => (Raise e, w')
               end
           end
       end.

(** [_load_script]. *)
Definition _load_script (command : string) (options : Options)
    : M Callable :=
  match entry_points host command with
  | ep :: _ => ret (console_script ep)
  | [] =>
      let* script_path := _locate_script command options in
      ret (exec_script script_path)
  end.

(** The [try] statement of [run_inprocess] (lines 245-265), with
    [stderr] the runner's own buffer. For the [SystemExit(code)] that
    [sys.exit(code)] raises, [str(exc)] is [str(code)]. The traceback of
    the last clause goes to whatever [sys.stderr] is bound to at that
    point. *)
Definition call_script (script : Callable) (stderr : nat) : M pyval :=
  try_except
    (emit Invoked ;;;
     let* returncode := lift_world script in
     if is_none returncode then ret (VInt 0) else ret returncode)
    (λ exc,
       match exc with
       | SystemExit code =>
           Some (if is_str code
                 then stream_write stderr (py_str code +:+ LF) ;;;
                      ret (VInt 1)
                 else if is_none code then ret (VInt 0)
                 else ret code)
       | PyException _ _ =>
           Some (print_stderr (format_exception host exc) ;;;
                 ret (VInt 1))
       | PyBaseException _ _ => None
       end).

(** Lines 223-242 of [run_inprocess]: load the script, build the
    streams, take the snapshot, and apply the [env] and [cwd] options. *)
Definition inprocess_prepare (command : string) (options : Options)
    : M Prepared :=
  let* script := _load_script command options in
  let* fresh_stdin := StreamMock in
  let stdin := default fresh_stdin (opt_stdin options) in
  let* stdout := StreamMock in
  let* stderr := StreamMock in
  let* saved_dir := os_getcwd in
  emit (Saved WorkingDir) ;;;
  let* logger_conf := _save_and_reset_logger in
  let* old_env :=
    match opt_env options with
    | Some env =>
        let* old := reads os_environ in
        emit (Saved Environ) ;;;
        modify (set_environ env) ;;;
        ret (Some old)
    | None => ret None
    end in
  match opt_cwd options with
  | Some d => os_chdir d
  | None => ret tt
  end ;;;
  let* (print_result, _) := pop_print_result options in
  ret {| p_script := script; p_stdin := stdin; p_stdout := stdout;
         p_stderr := stderr; p_saved_dir := saved_dir;
         p_logger_conf := logger_conf; p_old_env := old_env;
         p_print_result := print_result |}.

(** [run_inprocess]. *)
Definition run_inprocess (command : string) (arguments : list string)
    (options : Options) : M RunResult :=
  let cmdargs := command :: arguments in
  let* p := inprocess_prepare command options in
  let* returncode :=
    with_patches (p_stdin p) (p_stdout p) (p_stderr p) cmdargs
      (call_script (p_script p) (p_stderr p)) in
  _restore_logger (p_logger_conf p) ;;;
  os_chdir (p_saved_dir p) ;;;
  emit (Restored WorkingDir) ;;;
  match p_old_env p with
  | Some old => modify (set_environ old) ;;; emit (Restored Environ)
  | None => ret tt
  end ;;;
  let* out := reads (getvalue (p_stdout p)) in
  let* err := reads (getvalue (p_stderr p)) in
  RunResult_init returncode out err (p_print_result p).

(** Lines 286-289 of [run_subprocess]: the argument vector to spawn. *)
Definition subprocess_cmd_args (command : string) (arguments : list string)
    (options : Options) : M (list string) :=
  let cmd_args := command :: arguments in
  let* script_path := _locate_script command options in
  let* nonexec :=
    reads_outcome (λ w, _is_nonexecutable_python_file w script_path) in
  if (nonexec : bool) then
    let* exe := reads sys_executable in
    ret (default "python" (py_or exe (Some "python")) :: cmd_args)
  else ret cmd_args.

(** [run_subprocess]. *)
Definition run_subprocess (command : string) (arguments : list string)
    (options : Options) : M RunResult :=
  let* stdin_input :=
    match opt_stdin options with
    | Some f => let* text := reads (getvalue f) in ret (Some text)
    | None => ret None
    end in
  let options := setdefault_universal_newlines (pop_stdin options) in
  let* (print_result, options) := pop_print_result options in
  let* cmd_args := subprocess_cmd_args command arguments options in
  let* cp := lift_world (subprocess_run host cmd_args stdin_input options) in
  RunResult_init (VInt (cp_returncode cp)) (cp_stdout cp) (cp_stderr cp)
    print_result.


End Runner.

(** ** Fixtures *)

(** The [script_launch_mode] fixture: [str(request.param)]. *)
Definition script_launch_mode (param : pyval) : string := py_str param.

(** The [script_runner] fixture; [hide_run_results] is the value of
    [--hide-run-results]. *)
Definition script_runner (hide_run_results : bool) (script_cwd : string)
    (script_launch_mode : string) : outcome ScriptRunner :=
  let print_result := negb hide_run_results in
  ScriptRunner_init script_launch_mode script_cwd print_result.

(** ** A concrete process, for running the model *)

Module Example.

(** [/work] holds a plain script ([rw-r--r--]), a script its owner may
    execute ([rwxr--r--]) and one everybody may ([rwxr-xr-x]);
    [/usr/bin] holds an installed tool. *)
Definition files : gmap string File :=
  {[ "/work" := {| st_mode := 0x41ED; contents := "" |};
     "/elsewhere" := {| st_mode := 0x41ED; contents := "" |};
     "/usr/bin" := {| st_mode := 0x41ED; contents := "" |};
     "/usr/bin/tool" := {| st_mode := 0x81ED; contents := "tool" |};
     "/work/script.py" :=
       {| st_mode := 0x81A4; contents := "sys.exit('boom')" |};
     "/work/interrupt.py" :=
       {| st_mode := 0x81A4;
          contents := "os.chdir('/elsewhere'); raise KeyboardInterrupt" |};
     "/work/broken.py" :=
       {| st_mode := 0x81A4;
          contents := "os.chdir('/elsewhere'); raise RuntimeError('no')" |};
     "/work/owner.py" :=
       {| st_mode := 0x81E4; contents := "print('hi')" |};
     "/work/all.py" :=
       {| st_mode := 0x81ED; contents := "print('hi')" |} ]}.

Definition logger0 : Logger :=
  {| level := 30; handlers := [7%nat]; disabled := false |}.

Definition world0 : World :=
  {| os_cwd := "/work";
     os_environ := {[ "PATH" := "/usr/bin"; "HOME" := "/root" ]};
     root_logger := logger0;
     fs := files;
     streams := {[ 0%nat := ""; 1%nat := ""; 2%nat := "" ]};
     sys_stdin := 0; sys_stdout := 1; sys_stderr := 2;
     sys_argv := ["pytest"];
     sys_executable := Some "/usr/bin/python3" |}.

Definition st0 : St := {| world := world0; journal := [] |}.

(** A search path of one directory: the override, or [PATH] of the real
    environment; a hit is an entry any user may execute. *)
Definition which1 (w : World) (cmd : string) (path : option string)
    : option string :=
  let dir := default (default "" (os_environ w !! "PATH")) path in
  let candidate := os_path_join dir cmd in
  match fs w !! candidate with
  | Some f =>
      if bool_decide (Z.land (st_mode f) S_IXOTH ≠ 0) && negb (is_dir f)
      then Some candidate else None
  | None => None
  end.

(** An interpreter that knows four programs. *)
Definition exec4 (code : CodeObject) (globals : gmap string pyval)
    (w : World) : outcome unit * World :=
  let src := co_source code in
  if bool_decide (src = "sys.exit('boom')")
  then (Raise (SystemExit (VStr "boom")), w)
  else if bool_decide
            (src = "os.chdir('/elsewhere'); raise KeyboardInterrupt")
  then (Raise KeyboardInterrupt, set_cwd "/elsewhere" w)
  else if bool_decide
            (src = "os.chdir('/elsewhere'); raise RuntimeError('no')")
  then (Raise (PyException "RuntimeError" "no"), set_cwd "/elsewhere" w)
  else (Ret tt,
        set_streams (<[sys_stdout w := getvalue (sys_stdout w) w +:+ "hi"
                        +:+ LF]> (streams w)) w).

Definition host0 : Host :=
  {| shutil_which := which1;
     entry_points := λ _, [];
     syntax_error := λ _, None;
     py_exec := exec4;
     format_exception := λ e,
       match e with
       | PyException cls msg => cls +:+ ": " +:+ msg +:+ LF
       | _ => ""
       end;
     subprocess_run := λ args input opts w,
       (Ret {| cp_returncode := 0; cp_stdout := String.concat " " args;
               cp_stderr := "" |}, w) |}.

(** The same host with an interpreter that only reports the filename
    of the code it is given, as a traceback would. *)
Definition host_probe : Host :=
  {| shutil_which := which1;
     entry_points := λ _, [];
     syntax_error := λ _, None;
     py_exec := λ code globals w,
       (Raise (PyException "RuntimeError" (co_filename code)), w);
     format_exception := λ e,
       match e with
       | PyException cls msg => cls +:+ ": " +:+ msg +:+ LF
       | _ => ""
       end;
     subprocess_run := subprocess_run host0 |}.

Definition quiet : Options :=
  {| opt_env := None; opt_cwd := None; opt_stdin := None;
     opt_print_result := Some false; opt_universal_newlines := None;
     opt_rest := ∅ |}.

(** [env={'HOME': '/tmp'}], no [PATH] key. *)
Definition with_env : Options :=
  {| opt_env := Some {[ "HOME" := "/tmp" ]}; opt_cwd := None;
     opt_stdin := None; opt_print_result := Some false;
     opt_universal_newlines := None; opt_rest := ∅ |}.

(** The state [run_inprocess] has built when it calls a script found in
    [/work]: three new buffers, the logger reset, the environment
    swapped when [env] is given. *)
Definition reset_logger : Logger :=
  {| level := NOTSET; handlers := []; disabled := false |}.

Definition world_buffers : World :=
  set_logger reset_logger
    (set_streams
       (<[5%nat := ""]> (<[4%nat := ""]> (<[3%nat := ""]>
          (streams world0)))) world0).

Definition prepared (script_path : string)
    (old_env : option (gmap string string)) : Prepared :=
  {| p_script := exec_script host0 script_path;
     p_stdin := 3; p_stdout := 4; p_stderr := 5;
     p_saved_dir := "/work"; p_logger_conf := logger0;
     p_old_env := old_env; p_print_result := false |}.

Definition st_quiet : St :=
  {| world := world_buffers;
     journal := [Saved WorkingDir; Saved LoggerConf] |}.

Definition st_with_env : St :=
  {| world := set_environ {[ "HOME" := "/tmp" ]} world_buffers;
     journal := [Saved WorkingDir; Saved LoggerConf; Saved Environ] |}.

(** A test marked with an empty mode, run with
    [--script-launch-mode=both], under an ini file that says
    [subprocess]. *)
Definition mf_both : LaunchMode.Metafunc :=
  {| LaunchMode.fixturenames := ["script_runner"; "script_launch_mode"];
     LaunchMode.closest_marker := Some [VStr ""];
     LaunchMode.option_script_launch_mode := Some "both";
     LaunchMode.ini_script_launch_mode := "subprocess" |}.

(** A test marked [script_launch_mode(3)]. *)
Definition mf_three : LaunchMode.Metafunc :=
  {| LaunchMode.fixturenames := ["script_runner"; "script_launch_mode"];
     LaunchMode.closest_marker := Some [VInt 3];
     LaunchMode.option_script_launch_mode := None;
     LaunchMode.ini_script_launch_mode := "" |}.

End Example.

(** Further inputs: tests and runs on the edges of the code. *)
Module Cases.

Import Example.

(** A test that does not use the runner, under an ini file with a
    misspelt mode and a marker without arguments. *)
Definition mf_unrelated : LaunchMode.Metafunc :=
  {| LaunchMode.fixturenames := ["tmp_path"];
     LaunchMode.closest_marker := Some [];
     LaunchMode.option_script_launch_mode := None;
     LaunchMode.ini_script_launch_mode := "in-process" |}.

(** A test marked [@pytest.mark.script_launch_mode], without arguments. *)
Definition mf_bare : LaunchMode.Metafunc :=
  {| LaunchMode.fixturenames := ["script_runner"; "script_launch_mode"];
     LaunchMode.closest_marker := Some [];
     LaunchMode.option_script_launch_mode := Some "subprocess";
     LaunchMode.ini_script_launch_mode := "inprocess" |}.

(** [cwd='/nowhere'], a directory that does not exist. *)
Definition in_nowhere : Options :=
  {| opt_env := Some {[ "HOME" := "/tmp" ]}; opt_cwd := Some "/nowhere";
     opt_stdin := None; opt_print_result := Some false;
     opt_universal_newlines := None; opt_rest := ∅ |}.

(** [stdin=io.StringIO('input')], the stream object [9];
    [universal_newlines=False]; no [print_result]. *)
Definition with_stdin : Options :=
  {| opt_env := None; opt_cwd := None; opt_stdin := Some 9%nat;
     opt_print_result := None; opt_universal_newlines := Some false;
     opt_rest := ∅ |}.

(** [env={'PATH': '/elsewhere'}]: a search path without the tool. *)
Definition with_path : Options :=
  {| opt_env := Some {[ "PATH" := "/elsewhere" ]}; opt_cwd := None;
     opt_stdin := None; opt_print_result := Some false;
     opt_universal_newlines := None; opt_rest := ∅ |}.

(** An interpreter that does not know its own path. *)
Definition world_no_exe : World :=
  {| os_cwd := os_cwd world0; os_environ := os_environ world0;
     root_logger := root_logger world0; fs := fs world0;
     streams := streams world0; sys_stdin := sys_stdin world0;
     sys_stdout := sys_stdout world0; sys_stderr := sys_stderr world0;
     sys_argv := sys_argv world0; sys_executable := Some "" |}.

(** An installed command [hello] whose module cannot be imported, and one,
    [greet], that returns [None]. *)
Definition ep_hello : EntryPoint :=
  {| ep_load := λ w, (Raise (PyException "ImportError" "no module"), w) |}.

Definition ep_greet : EntryPoint :=
  {| ep_load := λ w, (Ret (λ w', (Ret VNone, w')), w) |}.

Definition host_entry : Host :=
  {| shutil_which := which1;
     entry_points := λ cmd,
       if bool_decide (cmd = "hello") then [ep_hello]
       else if bool_decide (cmd = "greet") then [ep_greet]
       else [];
     syntax_error := syntax_error host0;
     py_exec := py_exec host0;
     format_exception := format_exception host0;
     subprocess_run := subprocess_run host0 |}.

Definition st_no_exe : St := {| world := world_no_exe; journal := [] |}.

(** The state of a prepared run of [hello], and its local variables. *)
Definition prepared_hello : Prepared :=
  {| p_script := console_script ep_hello;
     p_stdin := 3; p_stdout := 4; p_stderr := 5;
     p_saved_dir := "/work"; p_logger_conf := logger0;
     p_old_env := None; p_print_result := false |}.




End Cases.

(** * Properties *)

(** ** Launch-mode resolution *)

Section LaunchModeFacts.

Import LaunchMode.

Lemma py_or_set (a b : option string) :
  is_set a = true → py_or a b = a.
Proof.
  destruct a as [s|]; simpl; [|discriminate].
  intros Hs. apply bool_decide_eq_true in Hs.
  destruct (decide (s = "")); [contradiction|reflexivity].
Qed.

Lemma py_or_unset (a b : option string) :
  is_set a = false → py_or a b = b.
Proof.
  destruct a as [s|]; simpl; [|reflexivity].
  intros Hs. apply bool_decide_eq_false in Hs.
  destruct (decide (s = "")) as [|Hne]; [reflexivity|].
  exfalso. apply Hs. exact Hne.
Qed.

Lemma is_set_Some (a : option string) :
  is_set a = true → a = Some (from_option id "" a).
Proof. destruct a; simpl; [reflexivity|discriminate]. Qed.

(** Line 97 computes the first set source, else ["inprocess"]. *)
Lemma resolve_mode_first_set (mark opt : option string) (cfg : string) :
  resolve_mode mark opt cfg = Some (first_set [mark; opt; Some cfg]).
Proof.
  unfold resolve_mode. cbn [first_set].
  destruct (is_set mark) eqn:Hm.
  { rewrite !(py_or_set mark) by exact Hm.
    apply is_set_Some, Hm. }
  rewrite (py_or_unset mark) by exact Hm.
  destruct (is_set opt) eqn:Ho.
  { rewrite !(py_or_set opt) by exact Ho.
    apply is_set_Some, Ho. }
  rewrite (py_or_unset opt) by exact Ho.
  destruct (is_set (Some cfg)) eqn:Hc.
  { rewrite (py_or_set (Some cfg)) by exact Hc. reflexivity. }
  rewrite (py_or_unset (Some cfg)) by exact Hc. reflexivity.
Qed.

Lemma first_set_nonempty (srcs : list (option string)) :
  first_set srcs ≠ "".
Proof.
  induction srcs as [|src rest IH]; simpl; [discriminate|].
  destruct src as [s|]; simpl; [|exact IH].
  destruct (bool_decide (s ≠ "")) eqn:Hs; [|exact IH].
  apply bool_decide_eq_true in Hs. exact Hs.
Qed.

Lemma generate_tests_requested (mf : Metafunc) (mark : option string) :
  "script_launch_mode" ∈ fixturenames mf →
  _get_mark_mode mf = Ret mark →
  pytest_generate_tests mf =
    let mode := resolve_mode mark (option_script_launch_mode mf)
                  (ini_script_launch_mode mf) in
    if bool_decide (mode = Some "inprocess" ∨ mode = Some "subprocess")
    then Ret (Parametrized "script_launch_mode" (option_list mode))
    else if bool_decide (mode = Some "both")
    then Ret (Parametrized "script_launch_mode"
                ["inprocess"; "subprocess"])
    else Raise (ValueError ("Invalid script launch mode: " +:+
                              from_option id "None" mode)).
Proof.
  intros Hin Hmark. unfold pytest_generate_tests.
  rewrite bool_decide_eq_true_2 by exact Hin.
  rewrite Hmark. reflexivity.
Qed.

(** C5. For a test that requests the [script_launch_mode] fixture, the
    resolved mode is the first set value among marker, command-line
    option and ini value, in this order, and ["inprocess"] when none is
    set; a resolved ["inprocess"] or ["subprocess"] parametrizes the test
    with that one mode, and a resolved ["both"] parametrizes it with
    exactly the two modes, in-process and child-process, once each. *)
Theorem resolved_mode_precedence (mf : Metafunc) (mark : option string) :
  "script_launch_mode" ∈ fixturenames mf →
  _get_mark_mode mf = Ret mark →
  let mode := first_set [mark; option_script_launch_mode mf;
                         Some (ini_script_launch_mode mf)] in
  resolve_mode mark (option_script_launch_mode mf)
    (ini_script_launch_mode mf) = Some mode ∧
  (is_set mark = false → is_set (option_script_launch_mode mf) = false →
   ini_script_launch_mode mf = "" → mode = "inprocess") ∧
  (mode = "inprocess" ∨ mode = "subprocess" →
   pytest_generate_tests mf =
     Ret (Parametrized "script_launch_mode" [mode])) ∧
  (mode = "both" →
   pytest_generate_tests mf =
     Ret (Parametrized "script_launch_mode" ["inprocess"; "subprocess"])).
Proof.
  intros Hin Hmark mode.
  pose proof (resolve_mode_first_set mark (option_script_launch_mode mf)
                (ini_script_launch_mode mf)) as Hres.
  fold mode in Hres.
  split; [exact Hres|]. split.
  { intros Hm Ho Hc. subst mode. cbn [first_set].
    rewrite Hm, Ho, Hc. reflexivity. }
  split.
  - intros Hmode.
    rewrite (generate_tests_requested mf mark Hin Hmark). cbv zeta.
    rewrite Hres. rewrite bool_decide_eq_true_2; [reflexivity|].
    destruct Hmode as [-> | ->]; [left|right]; reflexivity.
  - intros Hmode.
    rewrite (generate_tests_requested mf mark Hin Hmark). cbv zeta.
    rewrite Hres, Hmode. reflexivity.
Qed.

(** C9. When the resolved mode is none of ["inprocess"], ["subprocess"]
    and ["both"], the hook raises [ValueError] naming the mode instead of
    falling back to a default; and a source whose value is the empty
    string counts as unset: resolution goes on to the next source. *)
Theorem invalid_mode_raises (mf : Metafunc) (mark : option string)
    (mode : string) :
  "script_launch_mode" ∈ fixturenames mf →
  _get_mark_mode mf = Ret mark →
  resolve_mode mark (option_script_launch_mode mf)
    (ini_script_launch_mode mf) = Some mode →
  mode ∉ ["inprocess"; "subprocess"; "both"] →
  mode ≠ "" ∧
  pytest_generate_tests mf =
    Raise (ValueError ("Invalid script launch mode: " +:+ mode)) ∧
  (∀ opt cfg, resolve_mode (Some "") opt cfg = resolve_mode None opt cfg) ∧
  (∀ m cfg, resolve_mode m (Some "") cfg = resolve_mode m None cfg) ∧
  (∀ m opt, resolve_mode m opt "" =
            py_or (py_or m opt) (Some "inprocess")).
Proof.
  intros Hin Hmark Hres Hnot.
  split.
  { rewrite resolve_mode_first_set in Hres.
    assert (mode = first_set [mark; option_script_launch_mode mf;
                              Some (ini_script_launch_mode mf)]) as ->
      by congruence.
    apply first_set_nonempty. }
  split.
  { rewrite (generate_tests_requested mf mark Hin Hmark). cbv zeta.
    rewrite Hres.
    rewrite bool_decide_eq_false_2.
    2: { intros [H|H]; injection H as ->; apply Hnot; set_solver. }
    rewrite bool_decide_eq_false_2.
    2: { intros H; injection H as ->; apply Hnot; set_solver. }
    reflexivity. }
  split; [|split].
  - intros opt cfg. reflexivity.
  - intros m cfg. unfold resolve_mode.
    destruct m as [s|]; simpl; [|reflexivity].
    destruct (decide (s = "")); reflexivity.
  - intros m opt. unfold resolve_mode.
    destruct (py_or m opt) as [s|]; [|reflexivity].
    unfold py_or. destruct (decide (s = "")) as [->|Hs]; [reflexivity|].
    destruct (decide (s = "")); [contradiction|reflexivity].
Qed.

End LaunchModeFacts.

(** ** The result record *)

(** [RunResult.__init__] never fails, and printing changes nothing but the
    stream store. *)
Lemma RunResult_init_ret (rc : pyval) (out err : string) (pr : bool)
    (st : St) :
  ∃ st',
    RunResult_init rc out err pr st =
      (Ret {| success := py_eq_zero rc; returncode := rc; stdout := out;
              stderr := err |}, st') ∧
    journal st' = journal st ∧
    os_cwd (world st') = os_cwd (world st) ∧
    os_environ (world st') = os_environ (world st) ∧
    root_logger (world st') = root_logger (world st) ∧
    (pr = false → st' = st).
Proof.
  destruct pr; cbn; eexists; (split; [reflexivity|]); repeat split.
  all: intros H; first [discriminate H | reflexivity].
Qed.

(** C8. A [RunResult] built from return code [rc], captured output [out]
    and captured error text [err] stores exactly these three, and its
    success flag is [rc == 0]: for an integer return code, [True] exactly
    when the code is zero. *)
Theorem RunResult_stores_its_arguments (rc : pyval) (out err : string)
    (pr : bool) (st : St) :
  ∃ r st',
    RunResult_init rc out err pr st = (Ret r, st') ∧
    returncode r = rc ∧ stdout r = out ∧ stderr r = err ∧
    success r = py_eq_zero rc ∧
    (∀ n : Z, rc = VInt n → (success r = true ↔ n = 0)).
Proof.
  destruct (RunResult_init_ret rc out err pr st) as (st' & Hrun & _).
  eexists _, st'. split; [exact Hrun|]. cbn.
  do 4 (split; [reflexivity|]).
  intros n ->. cbn. apply bool_decide_eq_true.
Qed.

(** ** The classifier *)

(** What the code computes: the bit tested is bit 0 of [st_mode], the
    execute permission of "others". *)
Lemma classifier_tests_bit_0 (w : World) (p : string) (mode : Z) :
  stat_mode w p = Ret mode →
  _is_nonexecutable_python_file w p =
    Ret (bool_decide (Z.land mode S_IXOTH = 0) &&
         bool_decide (path_suffix p = ".py")).
Proof.
  intros Hstat. unfold _is_nonexecutable_python_file. rewrite Hstat.
  unfold X_OK, S_IXOTH.
  destruct (decide (Z.land mode 1 = 0)) as [Hz|Hz].
  - rewrite bool_decide_eq_false_2 by (intros H; apply H; exact Hz).
    rewrite (bool_decide_eq_true_2 _ Hz). reflexivity.
  - rewrite (bool_decide_eq_true_2 _ Hz).
    rewrite (bool_decide_eq_false_2 _ Hz). reflexivity.
Qed.

(** On a file whose owner and "others" execute bits agree, the code and
    the spec's classification coincide. *)
Lemma classifier_matches_spec_when_bits_agree (w : World) (p : string)
    (mode : Z) :
  stat_mode w p = Ret mode →
  Z.testbit mode 0 = Z.testbit mode 6 →
  _is_nonexecutable_python_file w p =
    Ret (spec_nonexecutable_python_source mode p).
Proof.
  intros Hstat Hbits. rewrite (classifier_tests_bit_0 w p mode Hstat).
  unfold spec_nonexecutable_python_source. f_equal. f_equal.
  assert (H0 : Z.land mode S_IXOTH = 0 ↔ Z.testbit mode 0 = false).
  { change S_IXOTH with (2 ^ 0). split.
    - intros H. pose proof (Z.land_spec mode (2 ^ 0) 0) as Hs.
      rewrite H, Z.bits_0, Z.pow2_bits_true, andb_true_r in Hs by lia.
      symmetry. exact Hs.
    - intros H. apply Z.bits_inj'. intros n Hn.
      rewrite Z.land_spec, Z.bits_0, Z.pow2_bits_eqb by lia.
      destruct (Z.eqb_spec 0 n) as [<-|]; [rewrite H|rewrite andb_false_r];
        reflexivity. }
  assert (H6 : Z.land mode S_IXUSR = 0 ↔ Z.testbit mode 6 = false).
  { change S_IXUSR with (2 ^ 6). split.
    - intros H. pose proof (Z.land_spec mode (2 ^ 6) 6) as Hs.
      rewrite H, Z.bits_0, Z.pow2_bits_true, andb_true_r in Hs by lia.
      symmetry. exact Hs.
    - intros H. apply Z.bits_inj'. intros n Hn.
      rewrite Z.land_spec, Z.bits_0, Z.pow2_bits_eqb by lia.
      destruct (Z.eqb_spec 6 n) as [<-|]; [rewrite H|rewrite andb_false_r];
        reflexivity. }
  apply bool_decide_ext. rewrite H0, H6, Hbits. reflexivity.
Qed.

(** C3. The classifier on a [.py] file of mode [rwxr--r--]: the owner's
    execute bit is set, so the file is not "non-executable Python source"
    in the spec's sense, yet the code answers [True], because the bit it
    tests is [os.X_OK = 1], the execute bit of "others". *)
Theorem classifier_misses_owner_execute_bit :
  stat_mode Example.world0 "owner.py" = Ret 0x81E4 ∧
  Z.land 0x81E4 S_IXUSR ≠ 0 ∧
  path_suffix "owner.py" = ".py" ∧
  spec_nonexecutable_python_source 0x81E4 "owner.py" = false ∧
  _is_nonexecutable_python_file Example.world0 "owner.py" = Ret true.
Proof. vm_compute. repeat split; discriminate. Qed.

(** ** Locating and loading *)

Section LocateFacts.

Context (host : Host).

(** [_locate_script] only reads the world. *)
Lemma locate_script_unfold (command : string) (options : Options)
    (st : St) :
  _locate_script host command options st =
    match shutil_which host (world st) command (env_PATH options) with
    | Some p => (Ret p, st)
    | None =>
        let candidate :=
          os_path_join (default (os_cwd (world st)) (opt_cwd options))
            command in
        if os_path_exists (world st) candidate then (Ret candidate, st)
        else (Raise (FileNotFoundError ("Cannot find " +:+ command)), st)
    end.
Proof.
  unfold _locate_script, bind, reads, os_getcwd. cbn.
  destruct (shutil_which host (world st) command (env_PATH options));
    [reflexivity|].
  cbn. destruct (os_path_exists _ _); reflexivity.
Qed.

Lemma locate_script_state (command : string) (options : Options)
    (st : St) :
  snd (_locate_script host command options st) = st.
Proof.
  rewrite locate_script_unfold.
  destruct (shutil_which _ _ _ _); [reflexivity|].
  cbv zeta. destruct (os_path_exists _ _); reflexivity.
Qed.

(** Only the [PATH] entry of [env] and the [cwd] option matter. *)
Lemma locate_script_ext (command : string) (o1 o2 : Options) (st : St) :
  env_PATH o1 = env_PATH o2 → opt_cwd o1 = opt_cwd o2 →
  _locate_script host command o1 st = _locate_script host command o2 st.
Proof.
  intros Hp Hc. rewrite !locate_script_unfold, Hp, Hc. reflexivity.
Qed.

Lemma load_script_no_entry_point (command : string) (options : Options)
    (st : St) :
  entry_points host command = [] →
  _load_script host command options st =
    match _locate_script host command options st with
    | (Ret p, st') => (Ret (exec_script host p), st')
    | (Raise e, st') => (Raise e, st')
    end.
Proof.
  intros Hep. unfold _load_script. rewrite Hep. unfold bind.
  destruct (_locate_script host command options st) as [[p|e] st'];
    reflexivity.
Qed.




(** C10. With an [env] option that has no ["PATH"] key, the path
    override handed to [shutil.which] is [None]: the search is the one of
    the real process environment, and the result of [_locate_script] is
    the same as without the [env] option, whatever else the supplied
    mapping holds. *)
Theorem env_without_PATH_searches_process_path (command : string)
    (options : Options) (env : gmap string string) (st : St) :
  opt_env options = Some env →
  env !! "PATH" = None →
  env_PATH options = None ∧
  _locate_script host command options st =
    _locate_script host command (without_env options) st ∧
  (∀ p, shutil_which host (world st) command None = Some p →
        _locate_script host command options st = (Ret p, st)).
Proof.
  intros Henv Hpath.
  assert (Hnone : env_PATH options = None).
  { unfold env_PATH. rewrite Henv. exact Hpath. }
  split; [exact Hnone|]. split.
  - apply locate_script_ext; [|reflexivity].
    rewrite Hnone. unfold env_PATH, without_env. cbn.
    symmetry. apply lookup_empty.
  - intros p Hp. rewrite locate_script_unfold, Hnone, Hp. reflexivity.
Qed.

End LocateFacts.

(** ** The filename given to [compile] *)

Lemma string_length_app (s t : string) :
  String.length (s +:+ t) = (String.length s + String.length t)%nat.
Proof.
  induction s as [|c s IH]; [reflexivity|].
  change (String c s +:+ t) with (String c (s +:+ t)).
  cbn [String.length]. rewrite IH. reflexivity.
Qed.

Lemma repr_char_length (q c : ascii) :
  (1 ≤ String.length (repr_char q c))%nat.
Proof.
  unfold repr_char.
  repeat match goal with
         | |- context [if ?b then _ else _] => destruct b
         end; cbn; lia.
Qed.

Lemma repr_body_length (q : ascii) (s : string) :
  (String.length s ≤ String.length (repr_body q s))%nat.
Proof.
  induction s as [|c s IH]; [cbn; lia|].
  change (repr_body q (String c s))
    with (repr_char q c +:+ repr_body q s).
  rewrite string_length_app. pose proof (repr_char_length q c).
  cbn [String.length]. lia.
Qed.

(** [str] of the open file is longer than the name it was opened with. *)
Lemma TextIOWrapper_str_longer (name : string) :
  (String.length name < String.length (TextIOWrapper_str name))%nat.
Proof.
  unfold TextIOWrapper_str, py_repr.
  rewrite !string_length_app. cbn [String.length].
  rewrite string_length_app.
  match goal with
  | |- context [repr_body ?q name] =>
      pose proof (repr_body_length q name)
  end.
  lia.
Qed.

Lemma TextIOWrapper_str_not_name (name : string) :
  TextIOWrapper_str name ≠ name.
Proof.
  intros H. pose proof (TextIOWrapper_str_longer name) as Hl.
  rewrite H in Hl. lia.
Qed.

Section LoadFacts.

Context (host : Host).

(** The thunk for a script file: the whole text is read, compiled, and
    executed with [__name__ == "__main__"]; the result is [0] unless the
    code raises. The filename of the code object is [str] of the file
    object. *)
Lemma exec_script_runs_file (script_path : string) (w : World)
    (text : string) :
  open_read w script_path = Ret text →
  syntax_error host text = None →
  exec_script host script_path w =
    match py_exec host
            {| co_source := text;
               co_filename := TextIOWrapper_str script_path |}
            {[ "__name__" := VStr "__main__" ]} w with
    | (Ret _, w') => (Ret (VInt 0), w')
    | (Raise e, w') => (Raise e, w')
    end.
Proof.
  intros Hopen Hsyn. unfold exec_script, py_compile.
  rewrite Hopen, Hsyn. reflexivity.
Qed.

(** Whatever the located path, the code object never carries it as its
    filename. *)
Lemma exec_script_filename_differs (text script_path : string)
    (code : CodeObject) :
  py_compile host text (TextIOWrapper_str script_path) = Ret code →
  co_source code = text ∧ co_filename code ≠ script_path.
Proof.
  unfold py_compile. destruct (syntax_error host text); [discriminate|].
  intros [= <-]. cbn. split; [reflexivity|].
  apply TextIOWrapper_str_not_name.
Qed.

(** The argument vector of the child process, by classification. *)
Lemma subprocess_cmd_args_by_class (command : string)
    (arguments : list string) (options : Options) (st : St)
    (script_path : string) (nonexec : bool) :
  _locate_script host command options st = (Ret script_path, st) →
  _is_nonexecutable_python_file (world st) script_path = Ret nonexec →
  subprocess_cmd_args host command arguments options st =
    (Ret (if nonexec
          then default "python"
                 (py_or (sys_executable (world st)) (Some "python"))
               :: command :: arguments
          else command :: arguments), st).
Proof.
  intros Hloc Hcls. unfold subprocess_cmd_args.
  unfold bind at 1. rewrite Hloc.
  unfold bind at 1, reads_outcome. rewrite Hcls.
  destruct nonexec; reflexivity.
Qed.

End LoadFacts.

(** C4. Loading [script.py] from [/work] with no entry point of that name:
    the thunk reads the file's text and executes it with
    [__name__ == "__main__"], but the filename of the compiled unit is the
    text of the open file object, not the located path
    [/work/script.py]: it is what the interpreter reports back. *)
Theorem exec_script_filename_is_not_the_path :
  fst (_locate_script Example.host_probe "script.py" Example.quiet
         Example.st0) = Ret "/work/script.py" ∧
  open_read Example.world0 "/work/script.py" = Ret "sys.exit('boom')" ∧
  py_compile Example.host_probe "sys.exit('boom')"
    (TextIOWrapper_str "/work/script.py") =
    Ret {| co_source := "sys.exit('boom')";
           co_filename := "<_io.TextIOWrapper name='/work/script.py' " +:+
                          "mode='rt' encoding='utf-8'>" |} ∧
  fst (exec_script Example.host_probe "/work/script.py" Example.world0) =
    Raise (PyException "RuntimeError"
             ("<_io.TextIOWrapper name='/work/script.py' " +:+
              "mode='rt' encoding='utf-8'>")).
Proof. vm_compute. repeat split. Qed.

(** C7. A child-process run of [owner.py], mode [rwxr--r--]: the file is
    executable by its owner, yet the interpreter is put in front of the
    argument vector, because the classifier looks at the execute bit of
    "others" only. [all.py], mode [rwxr-xr-x], is spawned directly, and
    the plain [script.py], mode [rw-r--r--], goes through the
    interpreter. *)
Theorem subprocess_prepends_interpreter_to_owner_executable :
  fst (_locate_script Example.host0 "owner.py" Example.quiet Example.st0) =
    Ret "/work/owner.py" ∧
  stat_mode Example.world0 "/work/owner.py" = Ret 0x81E4 ∧
  Z.land 0x81E4 S_IXUSR ≠ 0 ∧
  fst (subprocess_cmd_args Example.host0 "owner.py" [] Example.quiet
         Example.st0) = Ret ["/usr/bin/python3"; "owner.py"] ∧
  fst (subprocess_cmd_args Example.host0 "all.py" [] Example.quiet
         Example.st0) = Ret ["all.py"] ∧
  fst (subprocess_cmd_args Example.host0 "script.py" [] Example.quiet
         Example.st0) = Ret ["/usr/bin/python3"; "script.py"] ∧
  fst (run_subprocess Example.host0 "owner.py" [] Example.quiet Example.st0)
    = Ret {| success := true; returncode := VInt 0;
             stdout := "/usr/bin/python3 owner.py"; stderr := "" |}.
Proof. vm_compute. repeat split; discriminate. Qed.

(** ** The in-process run *)

Lemma bind_ret_inv {A B} (c : M A) (k : A → M B) (st st2 : St) (b : B) :
  bind c k st = (Ret b, st2) →
  ∃ a st1, c st = (Ret a, st1) ∧ k a st1 = (Ret b, st2).
Proof.
  unfold bind. destruct (c st) as [[a|e] st1]; [|discriminate].
  intros H. exists a, st1. split; [reflexivity|exact H].
Qed.

Lemma bind_ret_step {A B} (c : M A) (k : A → M B) (st st1 : St) (a : A) :
  c st = (Ret a, st1) → bind c k st = k a st1.
Proof. intros H. unfold bind. rewrite H. reflexivity. Qed.

Lemma bind_raise_step {A B} (c : M A) (k : A → M B) (st st1 : St)
    (e : pyexc) :
  c st = (Raise e, st1) → bind c k st = (Raise e, st1).
Proof. intros H. unfold bind. rewrite H. reflexivity. Qed.

(** Invert one step of a computation that returned. *)
Ltac bind_inv H a st1 Ha :=
  apply bind_ret_inv in H; destruct H as (a & st1 & Ha & H).

(** Invert a step that cannot fail: it fixes the value and the state. *)
Ltac prim_inv H :=
  cbv [ret reads modify emit StreamMock os_getcwd _save_and_reset_logger
       bind] in H;
  cbn in H; simplify_eq.

Section InprocessFacts.

Context (host : Host).

Lemma load_script_state (command : string) (options : Options) (st : St)
    (script : Callable) (st' : St) :
  _load_script host command options st = (Ret script, st') → st' = st.
Proof.
  unfold _load_script. destruct (entry_points host command) as [|ep eps].
  - unfold bind.
    pose proof (locate_script_state host command options st) as Hst.
    destruct (_locate_script host command options st) as [[q|e] st''];
      cbn in Hst; intros [= _ <-]; congruence.
  - intros [= _ <-]. reflexivity.
Qed.

(** What is live after lines 223-242: the snapshot holds the values of
    the world the run started in, and the journal has one [Saved] entry
    per part. *)
Lemma inprocess_prepare_snapshot (command : string) (options : Options)
    (st : St) (p : Prepared) (st1 : St) :
  inprocess_prepare host command options st = (Ret p, st1) →
  p_saved_dir p = os_cwd (world st) ∧
  p_logger_conf p = root_logger (world st) ∧
  p_old_env p = match opt_env options with
                | Some _ => Some (os_environ (world st))
                | None => None
                end ∧
  opt_print_result options = Some (p_print_result p) ∧
  journal st1 =
    (journal st ++ [Saved WorkingDir; Saved LoggerConf] ++
     match opt_env options with
     | Some _ => [Saved Environ]
     | None => []
     end)%list.
Proof.
  unfold inprocess_prepare. intros H.
  bind_inv H script st0 Hload. apply load_script_state in Hload as ->.
  bind_inv H i sti Hi. prim_inv Hi.
  bind_inv H o sto Ho. prim_inv Ho.
  bind_inv H e ste He. prim_inv He.
  bind_inv H saved sts Hs. prim_inv Hs.
  bind_inv H u stu Hu. prim_inv Hu.
  bind_inv H conf stc Hc. prim_inv Hc.
  bind_inv H old stold Hold.
  bind_inv H u' std Hd.
  bind_inv H pr stp Hp.
  unfold pop_print_result in Hp.
  destruct (opt_print_result options) as [b|]; [|discriminate Hp].
  prim_inv Hp. prim_inv H.
  assert (Hj : journal st1 = journal stold).
  { destruct (opt_cwd options) as [d|]; [|prim_inv Hd; reflexivity].
    unfold os_chdir in Hd.
    destruct (fs (world stold) !! resolve (world stold) d) as [f|];
      [|discriminate Hd].
    destruct (is_dir f); [|discriminate Hd]. prim_inv Hd. reflexivity. }
  cbn. rewrite Hj. clear Hj Hd.
  destruct (opt_env options) as [env|]; prim_inv Hold; cbn;
    rewrite <- ?app_assoc; repeat split.
Qed.

(** The [try] statement, by exit path of the script. *)
Lemma call_script_unfold (script : Callable) (stderr : nat) (st : St) :
  call_script host script stderr st =
    let j := (journal st ++ [Invoked])%list in
    match script (world st) with
    | (Ret v, w2) =>
        (Ret (if is_none v then VInt 0 else v),
         {| world := w2; journal := j |})
    | (Raise (SystemExit c), w2) =>
        if is_str c
        then (Ret (VInt 1),
              {| world :=
                   set_streams
                     (<[stderr := getvalue stderr w2 +:+ (py_str c +:+ LF)]>
                        (streams w2)) w2;
                 journal := j |})
        else (Ret (if is_none c then VInt 0 else c),
              {| world := w2; journal := j |})
    | (Raise (PyException cls msg), w2) =>
        (Ret (VInt 1),
         {| world :=
              set_streams
                (<[sys_stderr w2 :=
                     getvalue (sys_stderr w2) w2 +:+
                     format_exception host (PyException cls msg)]>
                   (streams w2)) w2;
            journal := j |})
    | (Raise (PyBaseException cls msg), w2) =>
        (Raise (PyBaseException cls msg), {| world := w2; journal := j |})
    end.
Proof.
  unfold call_script, try_except, bind, emit, lift_world. cbn.
  destruct (script (world st)) as [[v|[c|cls msg|cls msg]] w2]; cbn.
  - destruct (is_none v); reflexivity.
  - destruct (is_str c); [reflexivity|]. destruct (is_none c); reflexivity.
  - reflexivity.
  - reflexivity.
Qed.

Lemma os_path_join_absolute (a b : string) :
  starts_with_slash b = true → os_path_join a b = b.
Proof. intros H. unfold os_path_join. rewrite H. reflexivity. Qed.

(** Lines 267-274: once the [try] statement has produced a return code,
    the snapshot is written back, each part once, and the result is
    built from the two buffers. *)
Lemma run_inprocess_finish (command : string) (arguments : list string)
    (options : Options) (st st1 : St) (p : Prepared) (rc : pyval)
    (w3 : World) (j3 : list event) :
  inprocess_prepare host command options st = (Ret p, st1) →
  call_script host (p_script p) (p_stderr p)
    {| world := set_sys (p_stdin p) (p_stdout p) (p_stderr p)
                  (command :: arguments) (world st1);
       journal := journal st1 |} =
    (Ret rc, {| world := w3; journal := j3 |}) →
  starts_with_slash (p_saved_dir p) = true →
  can_enter w3 (p_saved_dir p) →
  ∃ st',
    run_inprocess host command arguments options st =
      (Ret {| success := py_eq_zero rc; returncode := rc;
              stdout := getvalue (p_stdout p) w3;
              stderr := getvalue (p_stderr p) w3 |}, st') ∧
    os_cwd (world st') = p_saved_dir p ∧
    root_logger (world st') = p_logger_conf p ∧
    (∀ old, p_old_env p = Some old → os_environ (world st') = old) ∧
    journal st' =
      (j3 ++ [Restored LoggerConf; Restored WorkingDir] ++
       match p_old_env p with
       | Some _ => [Restored Environ]
       | None => []
       end)%list.
Proof.
  intros Hprep Hcall Habs (f & Hf & Hdir).
  unfold run_inprocess. rewrite (bind_ret_step _ _ _ _ _ Hprep).
  unfold with_patches, bind at 1. rewrite Hcall.
  unfold _restore_logger, os_chdir, bind, modify, emit, reads. cbn.
  unfold resolve in Hf |- *. cbn.
  rewrite os_path_join_absolute in Hf |- * by exact Habs.
  rewrite Hf, Hdir.
  destruct (p_logger_conf p) as [lv hs dis] eqn:Hconf.
  destruct (p_old_env p) as [old|]; cbn.
  - match goal with
    | |- context [RunResult_init ?a ?b ?c ?d ?s] =>
        destruct (RunResult_init_ret a b c d s)
          as (st' & -> & Hj & Hc & He & Hl & _)
    end.
    exists st'. split; [reflexivity|].
    rewrite Hj, Hc, He, Hl. cbn. rewrite <- !app_assoc.
    repeat split. intros old' [= <-]. reflexivity.
  - match goal with
    | |- context [RunResult_init ?a ?b ?c ?d ?s] =>
        destruct (RunResult_init_ret a b c d s)
          as (st' & -> & Hj & Hc & He & Hl & _)
    end.
    exists st'. split; [reflexivity|].
    rewrite Hj, Hc, Hl. cbn. rewrite <- !app_assoc.
    repeat split. intros old' [=].
Qed.





End InprocessFacts.

(** ** The theorems at work on the concrete process *)

Section Instances.

Import LaunchMode Example.

(** An empty marker value is skipped, the command line says ["both"]:
    the test runs once per mode. *)
Lemma resolved_mode_precedence_witness :
  pytest_generate_tests mf_both =
    Ret (Parametrized "script_launch_mode" ["inprocess"; "subprocess"]).
Proof.
  apply (resolved_mode_precedence mf_both (Some "")).
  - apply list_elem_of_further, list_elem_of_here.
  - reflexivity.
  - reflexivity.
Defined.

(** A marker value of [3] resolves to the mode ["3"], which is refused. *)
Lemma invalid_mode_raises_witness :
  pytest_generate_tests mf_three =
    Raise (ValueError "Invalid script launch mode: 3").
Proof.
  apply (invalid_mode_raises mf_three (Some "3") "3").
  - apply list_elem_of_further, list_elem_of_here.
  - reflexivity.
  - reflexivity.
  - intros H. apply list_elem_of_In in H. cbn in H.
    decompose [or] H; discriminate || contradiction.
Defined.


(** [env={'HOME': '/tmp'}]: [tool] is still found through the [PATH] of
    the process. *)
Lemma env_without_PATH_searches_process_path_witness :
  _locate_script host0 "tool" with_env st0 = (Ret "/usr/bin/tool", st0).
Proof.
  apply (env_without_PATH_searches_process_path host0 "tool" with_env
           {[ "HOME" := "/tmp" ]} st0).
  - reflexivity.
  - vm_compute. reflexivity.
  - vm_compute. reflexivity.
Defined.




End Instances.

(** * Further properties of the code *)

(** ** Test generation and the fixtures *)

Section GenerationFacts.

Import LaunchMode.

(** A parametrization produced by the hook is for the
    [script_launch_mode] fixture and lists one mode or both, in-process
    first; every listed value, passed through the [script_launch_mode] and
    [script_runner] fixtures, satisfies the assertion of
    [ScriptRunner.__init__]. *)
Theorem generated_modes_build_runners (mf : Metafunc) (argname : string)
    (argvalues : list string) :
  pytest_generate_tests mf = Ret (Parametrized argname argvalues) →
  argname = "script_launch_mode" ∧
  (argvalues = ["inprocess"] ∨ argvalues = ["subprocess"] ∨
   argvalues = ["inprocess"; "subprocess"]) ∧
  (∀ v hide cwd,
     v ∈ argvalues →
     script_runner hide cwd (script_launch_mode (VStr v)) =
       Ret {| launch_mode := v; rootdir := cwd;
              print_result := negb hide |}).
Proof.
  unfold pytest_generate_tests. intros H.
  destruct (bool_decide ("script_launch_mode" ∈ fixturenames mf));
    [|discriminate H].
  destruct (_get_mark_mode mf) as [mark|e]; [|discriminate H].
  cbv zeta in H.
  set (mode := resolve_mode mark (option_script_launch_mode mf)
                 (ini_script_launch_mode mf)) in H.
  assert (Hshape : argname = "script_launch_mode" ∧
                   (argvalues = ["inprocess"] ∨ argvalues = ["subprocess"] ∨
                    argvalues = ["inprocess"; "subprocess"])).
  { destruct (bool_decide (mode = Some "inprocess" ∨ mode = Some "subprocess"))
      eqn:H1.
    - apply bool_decide_eq_true in H1. injection H as <- <-.
      split; [reflexivity|]. destruct H1 as [-> | ->]; cbn; auto.
    - destruct (bool_decide (mode = Some "both")); [|discriminate H].
      injection H as <- <-. auto. }
  destruct Hshape as [Hname Hvals]. split; [exact Hname|].
  split; [exact Hvals|].
  intros v hide cwd Hv. unfold script_runner, script_launch_mode,
    ScriptRunner_init. cbn [py_str].
  rewrite bool_decide_eq_true_2; [reflexivity|].
  apply list_elem_of_In in Hv.
  destruct Hvals as [-> | [-> | ->]]; cbn in Hv;
    decompose [or] Hv; subst; auto; contradiction.
Qed.

(** The hook leaves a test alone exactly when the test does not request
    the [script_launch_mode] fixture: then neither a misspelt mode nor a
    marker without arguments is an error. *)
Theorem not_parametrized_iff_not_requested (mf : Metafunc) :
  pytest_generate_tests mf = Ret NotParametrized ↔
  "script_launch_mode" ∉ fixturenames mf.
Proof.
  unfold pytest_generate_tests.
  destruct (decide ("script_launch_mode" ∈ fixturenames mf)) as [Hin|Hin].
  - rewrite bool_decide_eq_true_2 by exact Hin. split; [|contradiction].
    intros H. exfalso.
    destruct (_get_mark_mode mf); [|discriminate H]. cbv zeta in H.
    repeat match type of H with
           | (if ?b then _ else _) = _ => destruct b
           end; discriminate H.
  - rewrite bool_decide_eq_false_2 by exact Hin. split; auto.
Qed.

(** The hook fails in two ways only: with [IndexError], when the test
    carries a marker without arguments, whatever the option and the ini
    file say; and with [ValueError] naming the resolved mode. *)
Theorem generation_errors (mf : Metafunc) :
  (closest_marker mf = Some [] →
   "script_launch_mode" ∈ fixturenames mf →
   pytest_generate_tests mf = Raise (IndexError "tuple index out of range")) ∧
  (∀ e, pytest_generate_tests mf = Raise e →
        "script_launch_mode" ∈ fixturenames mf ∧
        ((closest_marker mf = Some [] ∧
          e = IndexError "tuple index out of range") ∨
         (∃ mark mode,
            _get_mark_mode mf = Ret mark ∧
            resolve_mode mark (option_script_launch_mode mf)
              (ini_script_launch_mode mf) = Some mode ∧
            (mode ∉ ["inprocess"; "subprocess"; "both"]) ∧
            e = ValueError ("Invalid script launch mode: " +:+ mode)))).
Proof.
  split.
  - intros Hm Hin. unfold pytest_generate_tests, _get_mark_mode.
    rewrite bool_decide_eq_true_2 by exact Hin. rewrite Hm. reflexivity.
  - intros e. unfold pytest_generate_tests.
    destruct (decide ("script_launch_mode" ∈ fixturenames mf)) as [Hin|Hin].
    2: { rewrite bool_decide_eq_false_2 by exact Hin. discriminate. }
    rewrite bool_decide_eq_true_2 by exact Hin. intros H.
    split; [exact Hin|].
    destruct (_get_mark_mode mf) as [mark|e'] eqn:Hmark.
    + right. cbv zeta in H.
      pose proof (resolve_mode_first_set mark (option_script_launch_mode mf)
                    (ini_script_launch_mode mf)) as Hres.
      rewrite Hres in H.
      remember (first_set [mark; option_script_launch_mode mf;
                           Some (ini_script_launch_mode mf)]) as mode
        eqn:Hmode.
      destruct (bool_decide (Some mode = Some "inprocess" ∨
                             Some mode = Some "subprocess")) eqn:H1;
        [discriminate H|].
      destruct (bool_decide (Some mode = Some "both")) eqn:H2;
        [discriminate H|].
      apply bool_decide_eq_false in H1. apply bool_decide_eq_false in H2.
      exists mark, mode. split; [reflexivity|]. split; [exact Hres|].
      split.
      * intros Hel. apply list_elem_of_In in Hel. cbn in Hel.
        destruct Hel as [<-|[<-|[<-|[]]]]; auto.
      * cbn in H. congruence.
    + left. unfold _get_mark_mode in Hmark.
      destruct (closest_marker mf) as [[|a args]|]; try discriminate Hmark.
      split; [reflexivity|]. congruence.
Qed.

End GenerationFacts.

(** ** The root logger *)

(** Saving hands back the configuration and leaves a logger without
    handlers, enabled, at level [NOTSET]; restoring overwrites whatever the
    logger has become, so handlers installed in between are dropped; and
    restoring right after saving gives back the world as it was. *)
Theorem logger_save_restore (st : St) (config : Logger) :
  (∃ st1,
     _save_and_reset_logger st = (Ret (root_logger (world st)), st1) ∧
     root_logger (world st1) =
       {| level := NOTSET; handlers := []; disabled := false |}) ∧
  (∃ st2,
     _restore_logger config st = (Ret tt, st2) ∧
     root_logger (world st2) = config) ∧
  (let* conf := _save_and_reset_logger in _restore_logger conf) st =
    (Ret tt, {| world := world st;
                journal := (journal st ++
                            [Saved LoggerConf; Restored LoggerConf])%list |}).
Proof.
  destruct st as [w j]. destruct w as [cwd env lg fsys strs i o e argv exe].
  destruct lg as [lv hs dis]. destruct config as [lv' hs' dis'].
  repeat split.
  - eexists. split; reflexivity.
  - eexists. split; reflexivity.
  - unfold _save_and_reset_logger, _restore_logger, bind, reads, modify,
      emit, ret, set_logger. cbn. rewrite <- app_assoc. reflexivity.
Qed.

(** ** Result packaging *)

(** With [print_result] the three-part report is appended to the stream
    [sys.stdout] is bound to at that moment, and no other stream changes;
    without it the construction has no effect at all. *)
Theorem RunResult_print_target (rc : pyval) (out err : string) (st : St) :
  let r := {| success := py_eq_zero rc; returncode := rc; stdout := out;
              stderr := err |} in
  let w := world st in
  (∃ st',
     RunResult_init rc out err true st = (Ret r, st') ∧
     getvalue (sys_stdout w) (world st') =
       getvalue (sys_stdout w) w +:+
       ("# Script return code: " +:+ py_str rc +:+ LF +:+
        "# Script stdout:" +:+ LF +:+ out +:+ LF +:+
        "# Script stderr:" +:+ LF +:+ err +:+ LF) ∧
     (∀ id, id ≠ sys_stdout w →
            streams (world st') !! id = streams w !! id)) ∧
  RunResult_init rc out err false st = (Ret r, st).
Proof.
  cbv zeta. split; [|reflexivity].
  eexists. split; [reflexivity|]. cbn. split.
  - unfold getvalue at 1. cbn. rewrite lookup_insert_eq. reflexivity.
  - intros id Hid. rewrite lookup_insert_ne by congruence. reflexivity.
Qed.

(** ** Locating *)

Section MoreLocateFacts.

Context (host : Host).

(** [_locate_script] changes nothing in the process, and of the options
    only the [PATH] entry of [env] and [cwd] have a say; for an absolute
    command the [cwd] option and the current directory have none: without
    a hit on the search path the command itself is returned if it
    exists. *)
Theorem locate_script_reads_only (command : string) (options : Options)
    (st : St) :
  snd (_locate_script host command options st) = st ∧
  (∀ o2, env_PATH o2 = env_PATH options → opt_cwd o2 = opt_cwd options →
         _locate_script host command o2 st =
         _locate_script host command options st) ∧
  (starts_with_slash command = true →
   shutil_which host (world st) command (env_PATH options) = None →
   _locate_script host command options st =
     if bool_decide (is_Some (fs (world st) !! command))
     then (Ret command, st)
     else (Raise (FileNotFoundError ("Cannot find " +:+ command)), st)).
Proof.
  split; [apply locate_script_state|]. split.
  - intros o2 Hp Hc. apply locate_script_ext; assumption.
  - intros Habs Hw. rewrite locate_script_unfold, Hw. cbv zeta.
    unfold os_path_exists, resolve.
    rewrite !(os_path_join_absolute _ command Habs). reflexivity.
Qed.

(** With an [env] option that has a ["PATH"] key, that value is the search
    path handed to [shutil.which]: a hit in it is returned, and a command
    found only on the path of the process is looked for in the working
    directory instead. *)
Theorem env_PATH_is_the_search_path (command : string) (options : Options)
    (env : gmap string string) (path : string) (st : St) :
  opt_env options = Some env →
  env !! "PATH" = Some path →
  env_PATH options = Some path ∧
  (∀ q, shutil_which host (world st) command (Some path) = Some q →
        _locate_script host command options st = (Ret q, st)) ∧
  (shutil_which host (world st) command (Some path) = None →
   os_path_exists (world st)
     (os_path_join (default (os_cwd (world st)) (opt_cwd options)) command)
     = false →
   _locate_script host command options st =
     (Raise (FileNotFoundError ("Cannot find " +:+ command)), st)).
Proof.
  intros Henv Hpath.
  assert (Hp : env_PATH options = Some path).
  { unfold env_PATH. rewrite Henv. exact Hpath. }
  split; [exact Hp|]. split.
  - intros q Hq. rewrite locate_script_unfold, Hp, Hq. reflexivity.
  - intros Hw Hex. rewrite locate_script_unfold, Hp, Hw. cbv zeta.
    rewrite Hex. reflexivity.
Qed.

End MoreLocateFacts.

(** ** The child-process run *)

Section SubprocessFacts.

Context (host : Host).




(** A script found through the working-directory fallback can always be
    classified, so the argument vector is built: the command line as
    given, or the same behind the interpreter. *)
Theorem cwd_fallback_is_spawnable (command : string)
    (arguments : list string) (options : Options) (st : St) :
  shutil_which host (world st) command (env_PATH options) = None →
  os_path_exists (world st)
    (os_path_join (default (os_cwd (world st)) (opt_cwd options)) command)
    = true →
  ∃ cmd_args,
    subprocess_cmd_args host command arguments options st =
      (Ret cmd_args, st) ∧
    (cmd_args = command :: arguments ∨
     cmd_args =
       default "python" (py_or (sys_executable (world st)) (Some "python"))
       :: command :: arguments).
Proof.
  intros Hw Hex.
  set (candidate := os_path_join (default (os_cwd (world st))
                                    (opt_cwd options)) command) in *.
  assert (Hloc : _locate_script host command options st =
                 (Ret candidate, st)).
  { rewrite locate_script_unfold, Hw. cbv zeta. fold candidate.
    rewrite Hex. reflexivity. }
  apply bool_decide_eq_true in Hex. destruct Hex as [f Hf].
  assert (Hcls : ∃ nonexec,
            _is_nonexecutable_python_file (world st) candidate =
              Ret nonexec).
  { unfold _is_nonexecutable_python_file, stat_mode. rewrite Hf.
    destruct (bool_decide (Z.land (st_mode f) X_OK ≠ 0)); eexists;
      reflexivity. }
  destruct Hcls as [nonexec Hcls].
  rewrite (subprocess_cmd_args_by_class host command arguments options st
             candidate nonexec Hloc Hcls).
  eexists. split; [reflexivity|]. destruct nonexec; auto.
Qed.

(** When the file is classified as non-executable Python source and the
    interpreter does not know its own path ([sys.executable] is [None] or
    empty), the command is spawned behind the name ["python"]; otherwise
    behind [sys.executable]. *)
Theorem interpreter_fallback_is_python (command : string)
    (arguments : list string) (options : Options) (st : St)
    (script_path : string) :
  _locate_script host command options st = (Ret script_path, st) →
  _is_nonexecutable_python_file (world st) script_path = Ret true →
  (sys_executable (world st) = None ∨ sys_executable (world st) = Some "" →
   subprocess_cmd_args host command arguments options st =
     (Ret ("python" :: command :: arguments), st)) ∧
  (∀ exe, sys_executable (world st) = Some exe → exe ≠ "" →
     subprocess_cmd_args host command arguments options st =
       (Ret (exe :: command :: arguments), st)).
Proof.
  intros Hloc Hcls.
  rewrite (subprocess_cmd_args_by_class host command arguments options st
             script_path true Hloc Hcls).
  split.
  - intros [-> | ->]; reflexivity.
  - intros exe -> Hne. unfold py_or.
    destruct (decide (exe = "")); [contradiction|reflexivity].
Qed.

(** Called without [print_result] (not through [run]), [run_subprocess]
    raises [KeyError] before it looks for the script, and has changed
    nothing. *)
Theorem run_subprocess_needs_print_result (command : string)
    (arguments : list string) (options : Options) (st : St) :
  opt_print_result options = None →
  run_subprocess host command arguments options st =
    (Raise (KeyError "'print_result'"), st).
Proof.
  intros Hb. unfold run_subprocess.
  destruct (opt_stdin options) as [f|]; cbn;
    unfold bind at 1, pop_print_result; cbn; rewrite Hb; reflexivity.
Qed.

End SubprocessFacts.

(** ** More on the in-process run *)

Section MoreInprocessFacts.

Context (host : Host).

Lemma getvalue_written (id : nat) (text : string) (w : World) :
  getvalue id (set_streams (<[id := text]> (streams w)) w) = text.
Proof. unfold getvalue. cbn. rewrite lookup_insert_eq. reflexivity. Qed.

Lemma getvalue_not_written (id id' : nat) (text : string) (w : World) :
  id ≠ id' →
  getvalue id' (set_streams (<[id := text]> (streams w)) w) = getvalue id' w.
Proof.
  intros Hne. unfold getvalue. cbn.
  rewrite lookup_insert_ne by exact Hne. reflexivity.
Qed.

(** The world after lines 223-242, field by field. *)
Lemma inprocess_prepare_world (command : string) (options : Options)
    (st : St) (p : Prepared) (st1 : St) :
  inprocess_prepare host command options st = (Ret p, st1) →
  let w := world st in
  let i := fresh (dom (streams w)) in
  let s1 := <[i := ""]> (streams w) in
  let o := fresh (dom s1) in
  let s2 := <[o := ""]> s1 in
  let e := fresh (dom s2) in
  _load_script host command options st = (Ret (p_script p), st) ∧
  p_stdin p = default i (opt_stdin options) ∧
  p_stdout p = o ∧ p_stderr p = e ∧
  streams (world st1) = <[e := ""]> s2 ∧
  root_logger (world st1) =
    {| level := NOTSET; handlers := []; disabled := false |} ∧
  os_environ (world st1) = default (os_environ w) (opt_env options) ∧
  os_cwd (world st1) = match opt_cwd options with
                       | Some d => resolve w d
                       | None => os_cwd w
                       end ∧
  fs (world st1) = fs w ∧
  sys_stdin (world st1) = sys_stdin w ∧
  sys_stdout (world st1) = sys_stdout w ∧
  sys_stderr (world st1) = sys_stderr w ∧
  sys_argv (world st1) = sys_argv w ∧
  sys_executable (world st1) = sys_executable w.
Proof.
  unfold inprocess_prepare. intros H.
  bind_inv H script st0 Hload.
  pose proof (load_script_state host _ _ _ _ _ Hload) as ->.
  bind_inv H i sti Hi. prim_inv Hi.
  bind_inv H o sto Ho. prim_inv Ho.
  bind_inv H e ste He. prim_inv He.
  bind_inv H saved sts Hs. prim_inv Hs.
  bind_inv H u stu Hu. prim_inv Hu.
  bind_inv H conf stc Hc. prim_inv Hc.
  bind_inv H old stold Hold.
  bind_inv H u' std Hd.
  bind_inv H pr stp Hp.
  unfold pop_print_result in Hp.
  destruct (opt_print_result options) as [b|]; [|discriminate Hp].
  prim_inv Hp. prim_inv H. cbv zeta. cbn [p_script p_stdin p_stdout p_stderr].
  split; [exact Hload|]. do 3 (split; [reflexivity|]).
  destruct (opt_env options) as [env|]; prim_inv Hold;
    (destruct (opt_cwd options) as [d|]; [|prim_inv Hd; repeat split]);
    unfold os_chdir in Hd; cbn in Hd;
    match type of Hd with
    | context [fs ?w !! ?k] =>
        destruct (fs w !! k) as [f|]; [|discriminate Hd]
    end;
    (destruct (is_dir f); [|discriminate Hd]); prim_inv Hd; repeat split.
Qed.

(** The stream objects of a prepared run. *)
Lemma prepared_buffers (command : string) (options : Options)
    (st : St) (p : Prepared) (st1 : St) :
  inprocess_prepare host command options st = (Ret p, st1) →
  (p_stdout p ∉ dom (streams (world st))) ∧
  (p_stderr p ∉ dom (streams (world st))) ∧
  p_stdout p ≠ p_stderr p ∧
  getvalue (p_stdout p) (world st1) = "" ∧
  getvalue (p_stderr p) (world st1) = "" ∧
  (∀ f, opt_stdin options = Some f → p_stdin p = f) ∧
  (opt_stdin options = None →
   (p_stdin p ∉ dom (streams (world st))) ∧
   p_stdin p ≠ p_stdout p ∧ p_stdin p ≠ p_stderr p ∧
   getvalue (p_stdin p) (world st1) = "") ∧
  (∀ id, id ∈ dom (streams (world st)) →
         streams (world st1) !! id = streams (world st) !! id).
Proof.
  intros Hprep.
  destruct (inprocess_prepare_world command options st p st1 Hprep)
    as (_ & Hi & Ho & He & Hs & _).
  cbv zeta in Hi, Ho, He, Hs.
  set (i := fresh (dom (streams (world st)))) in *.
  set (s1 := <[i := ""]> (streams (world st))) in *.
  set (o := fresh (dom s1)) in *.
  set (s2 := <[o := ""]> s1) in *.
  set (e := fresh (dom s2)) in *.
  assert (Hfi : i ∉ dom (streams (world st))) by apply is_fresh.
  assert (Hfo : o ∉ dom s1) by apply is_fresh.
  assert (Hfe : e ∉ dom s2) by apply is_fresh.
  unfold s2 in Hfe. rewrite dom_insert_L in Hfe.
  unfold s1 in Hfo, Hfe. rewrite dom_insert_L in Hfo, Hfe.
  assert (Hoi : o ≠ i) by set_solver.
  assert (Heo : e ≠ o) by set_solver.
  assert (Hei : e ≠ i) by set_solver.
  rewrite Ho, He. unfold getvalue. rewrite Hs.
  split; [set_solver|]. split; [set_solver|]. split; [congruence|].
  split.
  { rewrite lookup_insert_ne by congruence. unfold s2.
    rewrite lookup_insert_eq. reflexivity. }
  split; [rewrite lookup_insert_eq; reflexivity|].
  split.
  { intros f Hf. rewrite Hi, Hf. reflexivity. }
  split.
  { intros Hnone. rewrite Hi, Hnone. cbn.
    split; [exact Hfi|]. split; [congruence|]. split; [congruence|].
    rewrite lookup_insert_ne by congruence. unfold s2.
    rewrite lookup_insert_ne by congruence. unfold s1.
    rewrite lookup_insert_eq. reflexivity. }
  intros id Hid.
  rewrite lookup_insert_ne by (intros <-; set_solver). unfold s2.
  rewrite lookup_insert_ne by (intros <-; set_solver). unfold s1.
  rewrite lookup_insert_ne by (intros <-; set_solver). reflexivity.
Qed.

(** The two buffers that capture the script's output are new objects:
    they are none of the streams that existed before the call, differ from
    each other, and are empty when the script starts. The script's
    standard input is the [stdin] option when given, else a new empty
    buffer. No stream that existed before is touched by the set-up. *)
Theorem captured_buffers_are_fresh (command : string) (options : Options)
    (st : St) (p : Prepared) (st1 : St) :
  inprocess_prepare host command options st = (Ret p, st1) →
  (p_stdout p ∉ dom (streams (world st))) ∧
  (p_stderr p ∉ dom (streams (world st))) ∧
  p_stdout p ≠ p_stderr p ∧
  getvalue (p_stdout p) (world st1) = "" ∧
  getvalue (p_stderr p) (world st1) = "" ∧
  (∀ f, opt_stdin options = Some f → p_stdin p = f) ∧
  (opt_stdin options = None →
   (p_stdin p ∉ dom (streams (world st))) ∧
   p_stdin p ≠ p_stdout p ∧ p_stdin p ≠ p_stderr p ∧
   getvalue (p_stdin p) (world st1) = "") ∧
  (∀ id, id ∈ dom (streams (world st)) →
         streams (world st1) !! id = streams (world st) !! id).
Proof. exact (prepared_buffers command options st p st1). Qed.

(** The process as the script finds it: [sys.argv] is the command followed
    by the arguments and the three standard streams are the runner's; the
    environment mapping is the [env] option as it is, not merged with the
    environment of the process; the working directory is the [cwd] option;
    the root logger has no handlers, is enabled and at level [NOTSET]; the
    file system is untouched. *)
Theorem script_call_world (command : string) (arguments : list string)
    (options : Options) (st : St) (p : Prepared) (st1 : St) :
  inprocess_prepare host command options st = (Ret p, st1) →
  let wcall := set_sys (p_stdin p) (p_stdout p) (p_stderr p)
                 (command :: arguments) (world st1) in
  sys_argv wcall = command :: arguments ∧
  sys_stdin wcall = p_stdin p ∧
  sys_stdout wcall = p_stdout p ∧
  sys_stderr wcall = p_stderr p ∧
  (∀ env, opt_env options = Some env → os_environ wcall = env) ∧
  (opt_env options = None → os_environ wcall = os_environ (world st)) ∧
  (∀ d, opt_cwd options = Some d →
        os_cwd wcall = resolve (world st) d ∧ can_enter (world st) d) ∧
  (opt_cwd options = None → os_cwd wcall = os_cwd (world st)) ∧
  root_logger wcall =
    {| level := NOTSET; handlers := []; disabled := false |} ∧
  fs wcall = fs (world st).
Proof.
  intros Hprep.
  destruct (inprocess_prepare_world command options st p st1 Hprep)
    as (_ & _ & _ & _ & _ & Hl & He & Hc & Hf & _).
  cbv zeta in *. cbn [set_sys sys_argv sys_stdin sys_stdout sys_stderr
                      os_environ os_cwd root_logger fs].
  do 4 (split; [reflexivity|]).
  split; [intros env Henv; rewrite He, Henv; reflexivity|].
  split; [intros Henv; rewrite He, Henv; reflexivity|].
  split.
  { intros d Hd. rewrite Hc, Hd. split; [reflexivity|].
    revert Hprep. unfold inprocess_prepare. intros H.
    bind_inv H script st0 Hload.
    pose proof (load_script_state host _ _ _ _ _ Hload) as ->.
    bind_inv H i sti Hi. prim_inv Hi.
    bind_inv H o sto Ho. prim_inv Ho.
    bind_inv H e ste Hee. prim_inv Hee.
    bind_inv H saved sts Hs. prim_inv Hs.
    bind_inv H u stu Hu. prim_inv Hu.
    bind_inv H conf stc Hcf. prim_inv Hcf.
    bind_inv H old stold Hold.
    bind_inv H u' std Hch. clear H. rewrite Hd in Hch.
    unfold os_chdir in Hch.
    destruct (opt_env options) as [env|]; prim_inv Hold; cbn in Hch;
      match type of Hch with
      | context [fs ?w !! ?k] =>
          destruct (fs w !! k) as [f|] eqn:Hfs; [|discriminate Hch]
      end;
      (destruct (is_dir f) eqn:Hdir; [|discriminate Hch]);
      exists f; split; assumption. }
  split; [intros Hd; rewrite Hc, Hd; reflexivity|].
  split; [exact Hl|exact Hf].
Qed.


(** The run on the [except Exception] path. *)
Lemma run_inprocess_exception (command : string)
    (arguments : list string) (options : Options) (st st1 : St)
    (p : Prepared) (cls msg : string) (w2 : World) :
  starts_with_slash (os_cwd (world st)) = true →
  inprocess_prepare host command options st = (Ret p, st1) →
  p_script p (set_sys (p_stdin p) (p_stdout p) (p_stderr p)
                (command :: arguments) (world st1)) =
    (Raise (PyException cls msg), w2) →
  can_enter w2 (os_cwd (world st)) →
  ∃ r st',
    run_inprocess host command arguments options st = (Ret r, st') ∧
    returncode r = VInt 1 ∧ success r = false ∧
    (sys_stderr w2 = p_stderr p →
     stderr r = getvalue (p_stderr p) w2 +:+
                format_exception host (PyException cls msg) ∧
     stdout r = getvalue (p_stdout p) w2) ∧
    (sys_stderr w2 ≠ p_stderr p →
     stderr r = getvalue (p_stderr p) w2).
Proof.
  intros Habs Hprep Hscript Hcan.
  destruct (inprocess_prepare_snapshot host command options st p st1 Hprep)
    as (Hdir & _).
  destruct (prepared_buffers command options st p st1 Hprep)
    as (_ & _ & Hne & _).
  pose proof (call_script_unfold host (p_script p) (p_stderr p)
                {| world := set_sys (p_stdin p) (p_stdout p) (p_stderr p)
                              (command :: arguments) (world st1);
                   journal := journal st1 |}) as Hcall.
  cbn [world journal] in Hcall. rewrite Hscript in Hcall. cbv zeta in Hcall.
  rewrite <- Hdir in Habs, Hcan.
  assert (Hcan' : ∀ s, can_enter (set_streams s w2) (p_saved_dir p))
    by (intros s; exact Hcan).
  destruct (run_inprocess_finish host command arguments options st st1 p _ _
              _ Hprep Hcall Habs (Hcan' _)) as (st' & Hrun & _).
  eexists _, st'. split; [exact Hrun|].
  cbn [returncode stdout stderr success py_eq_zero].
  do 2 (split; [reflexivity|]).
  split.
  - intros ->. rewrite getvalue_written.
    rewrite getvalue_not_written by congruence. split; reflexivity.
  - intros Hother. rewrite getvalue_not_written by exact Hother.
    reflexivity.
Qed.


(** Once the script has been called, [sys.stdin], [sys.stdout],
    [sys.stderr] and [sys.argv] are again what they were before the run,
    whatever the script did to them and however the run ends: with a
    result, with an exception of the script that is not caught, or with a
    failure to return to the starting directory. *)
Theorem patches_undone_on_every_exit (command : string)
    (arguments : list string) (options : Options) (st st1 : St)
    (p : Prepared) :
  inprocess_prepare host command options st = (Ret p, st1) →
  let st' := snd (run_inprocess host command arguments options st) in
  sys_stdin (world st') = sys_stdin (world st) ∧
  sys_stdout (world st') = sys_stdout (world st) ∧
  sys_stderr (world st') = sys_stderr (world st) ∧
  sys_argv (world st') = sys_argv (world st).
Proof.
  intros Hprep.
  destruct (inprocess_prepare_world command options st p st1 Hprep)
    as (_ & _ & _ & _ & _ & _ & _ & _ & _ & Hi & Ho & He & Ha & _).
  cbv zeta in Hi, Ho, He, Ha. cbv zeta.
  remember (snd (run_inprocess host command arguments options st)) as st'
    eqn:Hst'.
  unfold run_inprocess in Hst'. rewrite (bind_ret_step _ _ _ _ _ Hprep) in Hst'.
  unfold with_patches, bind at 1 in Hst'.
  destruct (call_script host (p_script p) (p_stderr p) _) as [[rc|e] st2].
  2: { subst st'. cbn. repeat apply conj; assumption. }
  unfold _restore_logger, os_chdir, bind, modify, emit, reads, ret in Hst'.
  cbn in Hst'.
  match type of Hst' with
  | context [fs ?w !! ?k] => destruct (fs w !! k) as [f|]
  end.
  2: { subst st'. cbn. repeat apply conj; assumption. }
  destruct (is_dir f).
  2: { subst st'. cbn. repeat apply conj; assumption. }
  destruct (p_old_env p) as [old|]; cbn in Hst';
    unfold RunResult_init, print_stdout, stream_write, bind, modify, reads,
      ret in Hst';
    destruct (p_print_result p); subst st'; cbn;
    repeat apply conj; assumption.
Qed.

(** A [cwd] option that names no directory: [os.chdir] raises
    [FileNotFoundError] and the script is never called; by then the root
    logger has been reset and the environment swapped, and they stay so:
    nothing is written back. *)
Theorem missing_cwd_is_raised_after_the_snapshot (command : string)
    (arguments : list string) (options : Options) (st : St)
    (script : Callable) (d : string) :
  _load_script host command options st = (Ret script, st) →
  opt_cwd options = Some d →
  fs (world st) !! resolve (world st) d = None →
  ∃ st',
    run_inprocess host command arguments options st =
      (Raise (FileNotFoundError d), st') ∧
    root_logger (world st') =
      {| level := NOTSET; handlers := []; disabled := false |} ∧
    os_environ (world st') = default (os_environ (world st))
                               (opt_env options) ∧
    os_cwd (world st') = os_cwd (world st) ∧
    journal st' =
      (journal st ++ [Saved WorkingDir; Saved LoggerConf] ++
       match opt_env options with
       | Some _ => [Saved Environ]
       | None => []
       end)%list.
Proof.
  intros Hload Hd Hfs.
  unfold run_inprocess, inprocess_prepare.
  unfold bind at 1. unfold bind at 1. rewrite Hload. rewrite Hd.
  destruct (opt_env options) as [env|];
    cbv [bind StreamMock ret reads emit modify os_getcwd
         _save_and_reset_logger os_chdir]; cbn;
    unfold resolve in Hfs |- *; cbn; rewrite Hfs; cbn;
    eexists; (split; [reflexivity|]); cbn; rewrite <- ?app_assoc;
    repeat split.
Qed.

(** Called without [print_result] (not through [run]), [run_inprocess]
    raises [KeyError] only after it has loaded the script, reset the root
    logger, swapped the environment and changed directory; the script is
    not called and nothing is written back. *)
Theorem run_inprocess_needs_print_result (command : string)
    (arguments : list string) (options : Options) (st : St)
    (script : Callable) :
  _load_script host command options st = (Ret script, st) →
  opt_cwd options = None →
  opt_print_result options = None →
  ∃ st',
    run_inprocess host command arguments options st =
      (Raise (KeyError "'print_result'"), st') ∧
    root_logger (world st') =
      {| level := NOTSET; handlers := []; disabled := false |} ∧
    os_environ (world st') = default (os_environ (world st))
                               (opt_env options) ∧
    journal st' =
      (journal st ++ [Saved WorkingDir; Saved LoggerConf] ++
       match opt_env options with
       | Some _ => [Saved Environ]
       | None => []
       end)%list.
Proof.
  intros Hload Hd Hpr.
  unfold run_inprocess, inprocess_prepare.
  unfold bind at 1. unfold bind at 1. rewrite Hload. rewrite Hd.
  unfold pop_print_result. rewrite Hpr.
  destruct (opt_env options) as [env|];
    cbv [bind StreamMock ret raise reads emit modify os_getcwd
         _save_and_reset_logger]; cbn;
    eexists; (split; [reflexivity|]); cbn; rewrite <- ?app_assoc;
    repeat split.
Qed.

(** An installed entry point named like the command is used whatever the
    file system and the search path hold: nothing is looked up and
    [FileNotFoundError] cannot arise. Its callable is imported only when
    the thunk runs, inside the [try] statement: a failing import is an
    error of the script, return code [1], not an exception of
    [run_inprocess]. *)
Theorem entry_point_is_loaded_inside_the_call (command : string)
    (arguments : list string) (options : Options) (st st1 : St)
    (p : Prepared) (ep : EntryPoint) (eps : list EntryPoint)
    (cls msg : string) (w2 : World) :
  entry_points host command = ep :: eps →
  starts_with_slash (os_cwd (world st)) = true →
  inprocess_prepare host command options st = (Ret p, st1) →
  ep_load ep (set_sys (p_stdin p) (p_stdout p) (p_stderr p)
                (command :: arguments) (world st1)) =
    (Raise (PyException cls msg), w2) →
  can_enter w2 (os_cwd (world st)) →
  (∀ options' st',
     _load_script host command options' st' =
       (Ret (console_script ep), st')) ∧
  ∃ r st',
    run_inprocess host command arguments options st = (Ret r, st') ∧
    returncode r = VInt 1 ∧ success r = false.
Proof.
  intros Hep Habs Hprep Hload Hcan.
  assert (Hl : ∀ options' st',
            _load_script host command options' st' =
              (Ret (console_script ep), st')).
  { intros options' st'. unfold _load_script. rewrite Hep. reflexivity. }
  split; [exact Hl|].
  destruct (inprocess_prepare_world command options st p st1 Hprep)
    as (Hscript & _).
  rewrite Hl in Hscript. injection Hscript as Hscript.
  destruct (run_inprocess_exception command arguments options st st1 p
              cls msg w2 Habs Hprep) as (r & st' & Hrun & Hrc & Hs & _).
  { rewrite <- Hscript. unfold console_script. rewrite Hload. reflexivity. }
  { exact Hcan. }
  exists r, st'. auto.
Qed.

Lemma open_read_raises_exception (w : World) (path : string) (e : pyexc) :
  open_read w path = Raise e → ∃ cls msg, e = PyException cls msg.
Proof.
  unfold open_read. destruct (fs w !! resolve w path) as [f|].
  - destruct (is_dir f); [|discriminate]. intros [= <-].
    eexists _, _. reflexivity.
  - intros [= <-]. eexists _, _. reflexivity.
Qed.

(** The script file is opened and compiled only when the thunk runs, with
    the working directory already changed: a file that was located but
    cannot be opened then (it is a directory, or its relative path no
    longer leads to it), or whose text does not compile, is an error of
    the script, return code [1], not an exception of [run_inprocess]. *)
Theorem unreadable_script_is_code_1 (command : string)
    (arguments : list string) (options : Options) (st st1 : St)
    (p : Prepared) (script_path : string) :
  entry_points host command = [] →
  starts_with_slash (os_cwd (world st)) = true →
  inprocess_prepare host command options st = (Ret p, st1) →
  _locate_script host command options st = (Ret script_path, st) →
  let wcall := set_sys (p_stdin p) (p_stdout p) (p_stderr p)
                 (command :: arguments) (world st1) in
  ((∃ e, open_read wcall script_path = Raise e) ∨
   (∃ text msg, open_read wcall script_path = Ret text ∧
                syntax_error host text = Some msg)) →
  can_enter wcall (os_cwd (world st)) →
  ∃ r st',
    run_inprocess host command arguments options st = (Ret r, st') ∧
    returncode r = VInt 1 ∧ success r = false.
Proof.
  intros Hep Habs Hprep Hloc wcall Hbad Hcan.
  destruct (inprocess_prepare_world command options st p st1 Hprep)
    as (Hscript & _).
  rewrite (load_script_no_entry_point host command options st Hep) in Hscript.
  rewrite Hloc in Hscript. injection Hscript as Hscript.
  assert (Hraise : ∃ cls msg,
            p_script p wcall = (Raise (PyException cls msg), wcall)).
  { rewrite <- Hscript. unfold exec_script.
    destruct Hbad as [[e He] | (text & msg & Ht & Hs)].
    - destruct (open_read_raises_exception wcall script_path e He)
        as (cls & msg & ->).
      rewrite He. eexists _, _. reflexivity.
    - rewrite Ht. unfold py_compile. rewrite Hs.
      eexists _, _. reflexivity. }
  destruct Hraise as (cls & msg & Hraise).
  destruct (run_inprocess_exception command arguments options st st1 p
              cls msg wcall Habs Hprep Hraise Hcan)
    as (r & st' & Hrun & Hrc & Hs & _).
  exists r, st'. auto.
Qed.


End MoreInprocessFacts.

(** ** The further properties at work on the concrete process *)

(** Close an equation between closed terms by evaluation: the check is the
    kernel's, on the virtual machine. *)
Ltac by_vm :=
  match goal with
  | |- ?lhs = ?rhs => vm_cast_no_check (@eq_refl _ rhs)
  end.

Section MoreInstances.

Import LaunchMode Example Cases.

(** The second mode generated for [mf_both] builds a runner. *)
Lemma generated_modes_build_runners_witness :
  script_runner false "/work" (script_launch_mode (VStr "subprocess")) =
    Ret {| launch_mode := "subprocess"; rootdir := "/work";
           print_result := true |}.
Proof.
  apply (generated_modes_build_runners mf_both "script_launch_mode"
           ["inprocess"; "subprocess"]).
  - reflexivity.
  - apply list_elem_of_further, list_elem_of_here.
Defined.

(** A test without the fixture is left alone, whatever its marker and the
    ini file. *)
Lemma not_parametrized_iff_not_requested_witness :
  pytest_generate_tests mf_unrelated = Ret NotParametrized.
Proof.
  apply (proj2 (not_parametrized_iff_not_requested mf_unrelated)).
  intros H. apply list_elem_of_In in H. cbn in H.
  decompose [or] H; discriminate || contradiction.
Defined.

(** A bare marker is an [IndexError], option and ini value set or not. *)
Lemma generation_errors_witness :
  pytest_generate_tests mf_bare =
    Raise (IndexError "tuple index out of range").
Proof.
  apply (proj1 (generation_errors mf_bare)).
  - reflexivity.
  - apply list_elem_of_further, list_elem_of_here.
Defined.

(** An absolute command is found where it is, also under a [cwd] option
    that names no directory. *)
Lemma locate_script_reads_only_witness :
  _locate_script host0 "/work/script.py" in_nowhere st0 =
    (Ret "/work/script.py", st0).
Proof.
  destruct (locate_script_reads_only host0 "/work/script.py" in_nowhere st0)
    as (_ & _ & Habs).
  rewrite Habs; [by_vm|reflexivity|by_vm].
Defined.

(** [env={'PATH': '/elsewhere'}]: [tool], installed in [/usr/bin], is not
    found. *)
Lemma env_PATH_is_the_search_path_witness :
  _locate_script host0 "tool" with_path st0 =
    (Raise (FileNotFoundError "Cannot find tool"), st0).
Proof.
  apply (env_PATH_is_the_search_path host0 "tool" with_path
           {[ "PATH" := "/elsewhere" ]} "/elsewhere" st0).
  - reflexivity.
  - by_vm.
  - by_vm.
  - by_vm.
Defined.


(** [script.py] is found in the working directory and classified. *)
Lemma cwd_fallback_is_spawnable_witness :
  ∃ cmd_args,
    subprocess_cmd_args host0 "script.py" [] quiet st0 = (Ret cmd_args, st0).
Proof.
  destruct (cwd_fallback_is_spawnable host0 "script.py" [] quiet st0)
    as (cmd_args & Hargs & _).
  - by_vm.
  - by_vm.
  - exists cmd_args. exact Hargs.
Defined.

(** With an empty [sys.executable] the plain script runs behind
    ["python"]. *)
Lemma interpreter_fallback_is_python_witness :
  subprocess_cmd_args host0 "script.py" [] quiet st_no_exe =
    (Ret ["python"; "script.py"], st_no_exe).
Proof.
  destruct (interpreter_fallback_is_python host0 "script.py" [] quiet
              st_no_exe "/work/script.py") as [Hnone _].
  - by_vm.
  - by_vm.
  - apply Hnone. right. reflexivity.
Defined.

Lemma run_subprocess_needs_print_result_witness :
  run_subprocess host0 "script.py" [] with_stdin st0 =
    (Raise (KeyError "'print_result'"), st0).
Proof.
  apply (run_subprocess_needs_print_result host0 "script.py" [] with_stdin
           st0).
  reflexivity.
Defined.

(** The buffers of a run in [world0], whose streams are [0], [1], [2]. *)
Lemma captured_buffers_are_fresh_witness :
  p_stdout (prepared "/work/script.py" None) ≠
  p_stderr (prepared "/work/script.py" None).
Proof.
  apply (captured_buffers_are_fresh host0 "script.py" quiet st0
           (prepared "/work/script.py" None) st_quiet).
  by_vm.
Defined.

Lemma script_call_world_witness :
  sys_argv (set_sys 3 4 5 ["broken.py"; "-v"] (world st_with_env)) =
    ["broken.py"; "-v"] ∧
  os_environ (set_sys 3 4 5 ["broken.py"; "-v"] (world st_with_env)) =
    {[ "HOME" := "/tmp" ]}.
Proof.
  destruct (script_call_world host0 "broken.py" ["-v"] with_env st0
              (prepared "/work/broken.py" (Some (os_environ world0)))
              st_with_env) as (Hargv & _ & _ & _ & Henv & _).
  - by_vm.
  - split; [exact Hargv|]. apply Henv. reflexivity.
Defined.



(** After the interrupted run [sys.stdout] is the stream [1] again. *)
Lemma patches_undone_on_every_exit_witness :
  sys_stdout
    (world (snd (run_inprocess host0 "interrupt.py" [] with_env st0))) = 1%nat.
Proof.
  destruct (patches_undone_on_every_exit host0 "interrupt.py" [] with_env
              st0 st_with_env
              (prepared "/work/interrupt.py" (Some (os_environ world0))))
    as (_ & Ho & _).
  - by_vm.
  - exact Ho.
Defined.

(** [tool] under [cwd='/nowhere']. *)
Lemma missing_cwd_is_raised_after_the_snapshot_witness :
  ∃ st',
    run_inprocess host0 "tool" [] in_nowhere st0 =
      (Raise (FileNotFoundError "/nowhere"), st') ∧
    root_logger (world st') = reset_logger.
Proof.
  destruct (missing_cwd_is_raised_after_the_snapshot host0 "tool" []
              in_nowhere st0 (exec_script host0 "/usr/bin/tool") "/nowhere")
    as (st' & Hrun & Hl & _).
  - by_vm.
  - reflexivity.
  - by_vm.
  - exists st'. split; [exact Hrun|exact Hl].
Defined.

Lemma run_inprocess_needs_print_result_witness :
  ∃ st',
    run_inprocess host0 "script.py" [] with_stdin st0 =
      (Raise (KeyError "'print_result'"), st') ∧
    root_logger (world st') = reset_logger.
Proof.
  destruct (run_inprocess_needs_print_result host0 "script.py" [] with_stdin
              st0 (exec_script host0 "/work/script.py"))
    as (st' & Hrun & Hl & _).
  - by_vm.
  - reflexivity.
  - reflexivity.
  - exists st'. split; [exact Hrun|exact Hl].
Defined.

(** [hello] is installed but cannot be imported. *)
Lemma entry_point_is_loaded_inside_the_call_witness :
  ∃ r st',
    run_inprocess host_entry "hello" [] quiet st0 = (Ret r, st') ∧
    returncode r = VInt 1.
Proof.
  destruct (entry_point_is_loaded_inside_the_call host_entry "hello" []
              quiet st0 st_quiet prepared_hello ep_hello [] "ImportError"
              "no module" (set_sys 3 4 5 ["hello"] (world st_quiet)))
    as (_ & r & st' & Hrun & Hrc & _).
  - by_vm.
  - reflexivity.
  - by_vm.
  - by_vm.
  - exists {| st_mode := 0x41ED; contents := "" |}.
    split; by_vm.
  - exists r, st'. split; [exact Hrun|exact Hrc].
Defined.

(** The command [/elsewhere] names a directory: it is located, and cannot
    be opened. *)
Lemma unreadable_script_is_code_1_witness :
  ∃ r st',
    run_inprocess host0 "/elsewhere" [] quiet st0 = (Ret r, st') ∧
    returncode r = VInt 1.
Proof.
  destruct (unreadable_script_is_code_1 host0 "/elsewhere" [] quiet st0
              st_quiet (prepared "/elsewhere" None) "/elsewhere")
    as (r & st' & Hrun & Hrc & _).
  - reflexivity.
  - reflexivity.
  - by_vm.
  - by_vm.
  - left. exists (IsADirectoryError "/elsewhere"). by_vm.
  - exists {| st_mode := 0x41ED; contents := "" |}.
    split; by_vm.
  - exists r, st'. split; [exact Hrun|exact Hrc].
Defined.


End MoreInstances.
